(** * stats_display: CPU / RAM / NVIDIA GPU desktop widget (src/main.cpp)

    A shallow embedding of the sampling and refresh core of [main.cpp]:
    the CPU sampler [getCurrentCpuUsage], the RAM sampler
    [getCurrentRamUsage], the discovery of [nvidia-smi.exe]
    ([getNVSMIPath] and its helpers), the XML field extraction
    [parseGpuData], the orchestrator [refreshAllData] and the window
    procedure [WndProc].

    Modelling conventions.
    - [unsigned long long] is a [Z] kept in [0, 2^64) by [u64]; [DWORD],
      [unsigned long] and [unsigned int] (all 32 bits on Windows) are kept
      in [0, 2^32) by [u32].
    - [double] values are exact rationals ([Q]): the IEEE-754 rounding of
      each operation is not modelled (module [Binary64] evaluates the two
      formulas bit for bit at the inputs of the examples).  What is stated
      of a value is a bound or a sign that rounding to nearest keeps, or
      an exact value in a range where the operations do not round (integers
      below 2^53, division by a power of two).  A division
      whose divisor is not a literal is checked: a zero divisor is the
      abnormal outcome [division_by_zero].
    - C++ exceptions and that abnormal outcome are the left summand of the
      result type [M]; [try_catch] is the [catch (const std::exception&)]
      clause.
    - The operating system, the registry, the file system, the child
      process and pugixml's parser are inputs: the record [Env] holds what
      they answer during one message dispatch. *)

From Stdlib Require Import ZArith QArith Qround Qabs Bool List String Ascii Lia.
From Stdlib Require Import Floats.SpecFloat.
Import ListNotations.

Local Open Scope string_scope.
Local Open Scope Z_scope.

(** ** Machine integers *)

Definition u64 (z : Z) : Z := z mod 2 ^ 64.
Definition u32 (z : Z) : Z := z mod 2 ^ 32.

Definition ULONG_MAX : Z := 2 ^ 32 - 1.

(** ** Exceptions and abnormal outcomes *)

Inductive std_exception : Type :=
| runtime_error (what : string)
| invalid_argument (what : string)
| out_of_range (what : string).

Inductive abnormal : Type :=
| thrown (e : std_exception)
| division_by_zero.

Definition M (A : Type) : Type := (abnormal + A)%type.

Definition ret {A} (a : A) : M A := inr a.
Definition throw {A} (e : std_exception) : M A := inl (thrown e).

Definition bind {A B} (m : M A) (k : A -> M B) : M B :=
  match m with
  | inl x => inl x
  | inr a => k a
  end.

(** [try { body } catch (const std::exception& e) { handler }]: every class
    in [std_exception] derives from [std::exception]. *)
Definition try_catch {A} (body : M A) (handler : std_exception -> M A) : M A :=
  match body with
  | inl (thrown e) => handler e
  | other => other
  end.

Declare Scope cpp_scope.
Delimit Scope cpp_scope with cpp.
Notation "x <- m ;; k" := (bind m (fun x => k))
  (at level 61, m at next level, right associativity) : cpp_scope.
Notation "' p <- m ;; k" := (bind m (fun v => let p := v in k))
  (at level 61, p pattern, m at next level, right associativity) : cpp_scope.
Local Open Scope cpp_scope.

(** ** [double] *)

Definition double : Type := Q.

(** [a / b] on doubles, with the divisor checked. *)
Definition double_div (a b : double) : M double :=
  if Qeq_bool b 0 then inl division_by_zero else ret (a / b)%Q.

(** [static_cast<double>] of an integer. *)
Definition to_double (z : Z) : double := inject_Z z.

(** ** CPU block *)

Record FILETIME : Type := {
  dwLowDateTime : Z;
  dwHighDateTime : Z
}.

(** [(static_cast<unsigned long long>(ft.dwHighDateTime) << 32) | ft.dwLowDateTime] *)
Definition FileTimeToInt64 (ft : FILETIME) : Z :=
  Z.lor (u64 (Z.shiftl (u32 (dwHighDateTime ft)) 32)) (u32 (dwLowDateTime ft)).

(** What a successful [GetSystemTimes] writes through its three pointers. *)
Record SystemTimes : Type := {
  idleTime : FILETIME;
  kernelTime : FILETIME;
  userTime : FILETIME
}.

(** The four statics of the CPU block. *)
Record CpuStatics : Type := {
  previousIdleTime : Z;
  previousKernelTime : Z;
  previousUserTime : Z;
  firstCall : bool
}.

Definition cpu_statics_init : CpuStatics :=
  {| previousIdleTime := 0; previousKernelTime := 0; previousUserTime := 0;
     firstCall := true |}.

Definition idleTimeDelta (st : CpuStatics) (now : SystemTimes) : Z :=
  u64 (FileTimeToInt64 (idleTime now) - previousIdleTime st).
Definition kernelTimeDelta (st : CpuStatics) (now : SystemTimes) : Z :=
  u64 (FileTimeToInt64 (kernelTime now) - previousKernelTime st).
Definition userTimeDelta (st : CpuStatics) (now : SystemTimes) : Z :=
  u64 (FileTimeToInt64 (userTime now) - previousUserTime st).
Definition totalActivityTime (st : CpuStatics) (now : SystemTimes) : Z :=
  u64 (kernelTimeDelta st now + userTimeDelta st now).

(** The statics after the three assignments [previousXTime = currentXTime]. *)
Definition store_baseline (now : SystemTimes) : CpuStatics :=
  {| previousIdleTime := FileTimeToInt64 (idleTime now);
     previousKernelTime := FileTimeToInt64 (kernelTime now);
     previousUserTime := FileTimeToInt64 (userTime now);
     firstCall := false |}.

(** [getCurrentCpuUsage]; [sys] is the answer of [GetSystemTimes]
    ([None]: the call returned FALSE). *)
Definition getCurrentCpuUsage (sys : option SystemTimes) (st : CpuStatics)
  : M (double * CpuStatics) :=
  match sys with
  | None => ret ((-1 # 1)%Q, st)
  | Some now =>
      if firstCall st then ret (0%Q, store_baseline now)
      else
        let idle := idleTimeDelta st now in
        let total := totalActivityTime st now in
        let st' := store_baseline now in
        if total =? 0 then ret (0%Q, st')
        else
          q <- double_div (to_double idle) (to_double total) ;;
          ret (((1 - q) * (100 # 1))%Q, st')
  end.

(** ** RAM block *)

Record MEMORYSTATUSEX : Type := {
  ullTotalPhys : Z;
  ullAvailPhys : Z
}.

Definition getCurrentRamUsage (memInfo : MEMORYSTATUSEX) : double :=
  let usedPhysMem := u64 (u64 (ullTotalPhys memInfo) - u64 (ullAvailPhys memInfo)) in
  (to_double usedPhysMem / ((1024 # 1) * (1024 # 1) * (1024 # 1)))%Q.

(** ** [std::string] operations used by the program *)

Definition backslash : ascii := "092"%char.
Definition slash : ascii := "047"%char.
Definition dquote : ascii := "034"%char.
Definition newline : ascii := "010"%char.
Definition NUL : ascii := "000"%char.

Definition chr (c : ascii) : string := String c EmptyString.
Definition nl : string := chr newline.

(** [s.empty()] *)
Definition empty (s : string) : bool :=
  match s with
  | EmptyString => true
  | String _ _ => false
  end.

(** [s.back()], meaningful on a non-empty string only. *)
Fixpoint back (s : string) : option ascii :=
  match s with
  | EmptyString => None
  | String c EmptyString => Some c
  | String _ rest => back rest
  end.

Definition back_is (s : string) (c : ascii) : bool :=
  match back s with
  | Some d => Ascii.eqb d c
  | None => false
  end.

(** [s.find(c) != std::string::npos] *)
Fixpoint contains (s : string) (c : ascii) : bool :=
  match s with
  | EmptyString => false
  | String d rest => Ascii.eqb d c || contains rest c
  end.

(** [s.find_last_of(set)]: [None] is [std::string::npos]. *)
Fixpoint find_last_of (s set : string) : option nat :=
  match s with
  | EmptyString => None
  | String c rest =>
      match find_last_of rest set with
      | Some i => Some (S i)
      | None => if contains set c then Some O else None
      end
  end.

(** [s.substr(pos, n)] for [pos <= s.size()]. *)
Definition substr (s : string) (pos n : nat) : string := substring pos n s.

(** [s.c_str()] read back as a C string: it ends at the first NUL. *)
Fixpoint c_str (s : string) : string :=
  match s with
  | EmptyString => EmptyString
  | String c rest => if Ascii.eqb c NUL then EmptyString else String c (c_str rest)
  end.

(** The successive results of [std::getline(iss, dir, delim)] until the
    stream fails: the pieces between delimiters, where a final piece that is
    empty (end of input reached with nothing extracted) is not produced.
    [cur] is the piece read so far. *)
Fixpoint getlines (delim : ascii) (cur s : string) : list string :=
  match s with
  | EmptyString => if empty cur then [] else [cur]
  | String c rest =>
      if Ascii.eqb c delim then cur :: getlines delim EmptyString rest
      else getlines delim (cur ++ chr c) rest
  end.

(** ** Decimal output *)

Definition digit_char (d : Z) : ascii := ascii_of_N (48 + Z.to_N d).

(** The decimal digits of a non-negative integer, most significant first;
    [fuel] bounds the number of digits. *)
Fixpoint digits_fuel (fuel : nat) (n : Z) (acc : string) : string :=
  match fuel with
  | O => acc
  | S fuel' =>
      let acc' := String (digit_char (n mod 10)) acc in
      if n <? 10 then acc' else digits_fuel fuel' (n / 10) acc'
  end.

(** [os << n] for an unsigned integer. *)
Definition put_unsigned (n : Z) : string :=
  digits_fuel (S (Z.to_nat (Z.log2 n))) n EmptyString.

(** Round to the nearest integer, ties to even. *)
Definition round_half_even (x : Q) : Z :=
  let f := Qfloor x in
  match ((x - inject_Z f) ?= (1 # 2))%Q with
  | Lt => f
  | Gt => f + 1
  | Eq => if Z.even f then f else f + 1
  end.

(** [os << std::fixed << std::setprecision(2) << x] for a double. *)
Definition put_fixed2 (x : double) : string :=
  let n := round_half_even (Qabs x * (100 # 1))%Q in
  let sign := match (x ?= 0)%Q with Lt => "-" | _ => "" end in
  sign ++ put_unsigned (n / 100) ++ "."
       ++ String (digit_char (n mod 100 / 10))
            (String (digit_char (n mod 10)) EmptyString).

(** ** pugixml documents

    With the default parse flags a loaded document holds element nodes and
    character data (PCDATA or CDATA) only. *)

#[local] Set Warnings "-register-all".

Inductive xml_node_struct : Type :=
| element (name : string) (children : list xml_node_struct)
| pcdata (value : string).

(** A node handle; [None] is the null handle. *)
Definition xml_node : Type := option xml_node_struct.

(** The document node: its children are the top-level nodes. *)
Definition xml_document : Type := list xml_node_struct.

Definition children_of (n : xml_node) : list xml_node_struct :=
  match n with
  | Some (element _ cs) => cs
  | _ => []
  end.

Definition is_element_named (name_ : string) (n : xml_node_struct) : bool :=
  match n with
  | element nm _ => String.eqb nm name_
  | pcdata _ => false
  end.

(** [node.child(name)]: the first child element with that name, or the null
    handle; a null handle has no children. *)
Definition child (n : xml_node) (name_ : string) : xml_node :=
  find (is_element_named name_) (children_of n).

(** [doc.child(name)] *)
Definition doc_child (doc : xml_document) (name_ : string) : xml_node :=
  find (is_element_named name_) doc.

Definition is_pcdata (n : xml_node_struct) : bool :=
  match n with
  | pcdata _ => true
  | element _ _ => false
  end.

(** [node.text().get()]: the value of the first character-data child, the
    empty string when there is none or the handle is null. *)
Definition text_get (n : xml_node) : string :=
  match find is_pcdata (children_of n) with
  | Some (pcdata v) => v
  | _ => ""
  end.

(** ** [std::stoul] (base 10, 32-bit [unsigned long]) *)

Definition isspace (c : ascii) : bool :=
  let n := N_of_ascii c in ((n =? 32) || ((9 <=? n) && (n <=? 13)))%N.

Definition isdigit (c : ascii) : bool :=
  let n := N_of_ascii c in ((48 <=? n) && (n <=? 57))%N.

Definition digit_value (c : ascii) : Z := Z.of_N (N_of_ascii c) - 48.

Fixpoint skip_spaces (s : string) : string :=
  match s with
  | String c rest => if isspace c then skip_spaces rest else s
  | EmptyString => s
  end.

(** The value of the longest prefix of decimal digits, [None] when the
    string does not start with a digit. *)
Fixpoint read_digits (s : string) (acc : option Z) : option Z :=
  match s with
  | String c rest =>
      if isdigit c
      then read_digits rest
             (Some (10 * match acc with Some a => a | None => 0 end + digit_value c))
      else acc
  | EmptyString => acc
  end.

Definition stoul (str : string) : M Z :=
  let s := skip_spaces str in
  let '(negative, s) :=
    match s with
    | String "-" rest => (true, rest)
    | String "+" rest => (false, rest)
    | _ => (false, s)
    end in
  match read_digits s None with
  | None => throw (invalid_argument "invalid stoul argument")
  | Some magnitude =>
      if ULONG_MAX <? magnitude
      then throw (out_of_range "stoul argument out of range")
      else ret (if negative then u32 (- magnitude) else magnitude)
  end.

(** ** GPU block *)

Record GpuData : Type := {
  name : string;
  driverVersion : string;
  temperature : Z;
  memoryTotal : double;
  memoryUsed : double;
  utilizationGpu : Z
}.

(** The zero-initialised global [g_gpuData]. *)
Definition GpuData_zero : GpuData :=
  {| name := ""; driverVersion := ""; temperature := 0; memoryTotal := 0%Q;
     memoryUsed := 0%Q; utilizationGpu := 0 |}.

(** The indeterminate contents of the scalar members of the local
    [GpuData data;] of [parseGpuData]: its default-initialisation builds the
    two strings empty and leaves the scalars as they happen to be. *)
Record Indeterminate : Type := {
  ind_temperature : Z;
  ind_memoryTotal : double;
  ind_memoryUsed : double;
  ind_utilizationGpu : Z
}.

Inductive RegistryAnswer : Type :=
| RegOpenKeyExA_failed
| RegQueryValueExA_failed
| RegValue (value : string).

(** What the environment answers during one message dispatch. *)
Record Env : Type := {
  GetSystemTimes : option SystemTimes;
  GlobalMemoryStatusEx : MEMORYSTATUSEX;
  NVSMI_registry : RegistryAnswer;
  PathFileExistsA : string -> bool;
  GetModuleFileNameA : string;
  PATH : option string;
  CreatePipe : bool;
  (** the child process for a command line: the error code of a failed
      [CreateProcessA], or everything read from the pipe *)
  CreateProcessA : string -> Z + string;
  (** [doc.load_string]: the document when parsing succeeds *)
  load_string : string -> option xml_document;
  stack : Indeterminate
}.

Definition nvidia_smi_exe : string := "nvidia-smi.exe".

Definition fileExists (e : Env) (path : string) : bool := PathFileExistsA e path.

(** [if (!s.empty() && s.back() != '\\') s += '\\';] *)
Definition add_backslash (s : string) : string :=
  if negb (empty s) && negb (back_is s backslash) then s ++ chr backslash else s.

Definition getNVSMIPathFromRegistry (e : Env) : string :=
  match NVSMI_registry e with
  | RegValue value =>
      let path := add_backslash value ++ nvidia_smi_exe in
      if fileExists e path then path else ""
  | _ => ""
  end.

(** The [while (std::getline(iss, dir, ';'))] loop of [findInPath]. *)
Fixpoint findInPath_loop (e : Env) (exeName : string) (dirs : list string) : string :=
  match dirs with
  | [] => ""
  | dir :: rest =>
      let fullPath := add_backslash dir ++ exeName in
      if fileExists e fullPath then fullPath
      else findInPath_loop e exeName rest
  end.

Definition findInPath (e : Env) (exeName : string) : string :=
  match PATH e with
  | None => ""
  | Some envPath => findInPath_loop e exeName (getlines ";" "" envPath)
  end.

Definition commonPaths : list string :=
  [ "C:\Program Files\NVIDIA Corporation\NVSMI\nvidia-smi.exe";
    "C:\Windows\System32\nvidia-smi.exe";
    "C:\Windows\Sysnative\nvidia-smi.exe" ].

(** One numbered step of [getNVSMIPath]: [Some p] when the step executes
    [return p], [None] when control falls through to the next step. *)
Definition step_registry (e : Env) : option string :=
  let path := getNVSMIPathFromRegistry e in
  if negb (empty path) then Some path else None.

Definition step_common (e : Env) : option string :=
  find (fileExists e) commonPaths.

Definition step_exe_folder (e : Env) : option string :=
  let exeDir := GetModuleFileNameA e in
  match find_last_of exeDir (String backslash (chr slash)) with
  | Some pos =>
      let exeDir := substr exeDir 0 (pos + 1) ++ nvidia_smi_exe in
      if fileExists e exeDir then Some exeDir else None
  | None => None
  end.

Definition step_PATH (e : Env) : option string :=
  let path := findInPath e nvidia_smi_exe in
  if negb (empty path) then Some path else None.

Definition or_else (step : option string) (next : string) : string :=
  match step with
  | Some p => p
  | None => next
  end.

Definition getNVSMIPath (e : Env) : string :=
  or_else (step_registry e)        (* 1. Try registry *)
  (or_else (step_common e)         (* 2. Try common install locations *)
  (or_else (step_exe_folder e)     (* 3. Try same folder as this executable *)
  (or_else (step_PATH e)           (* 4. Try PATH *)
   nvidia_smi_exe))).              (* 5. Fallback: just the name *)

Definition exec_no_console (e : Env) (cmd : string) : M string :=
  if negb (CreatePipe e) then throw (runtime_error "CreatePipe failed!")
  else
    match CreateProcessA e cmd with
    | inl errorCode =>
        throw (runtime_error
                 ("CreateProcess failed with error code: " ++ put_unsigned errorCode))
    | inr result => ret result
    end.

Definition getXmlGpuData (e : Env) : M string :=
  let nvsmiExePath := getNVSMIPath e in
  let command :=
    if contains nvsmiExePath backslash || contains nvsmiExePath " "
    then chr dquote ++ nvsmiExePath ++ chr dquote ++ " -q -x"
    else nvsmiExePath ++ " -q -x" in
  exec_no_console e (c_str command).

Definition set_name (d : GpuData) (v : string) : GpuData :=
  {| name := v; driverVersion := driverVersion d; temperature := temperature d;
     memoryTotal := memoryTotal d; memoryUsed := memoryUsed d;
     utilizationGpu := utilizationGpu d |}.
Definition set_driverVersion (d : GpuData) (v : string) : GpuData :=
  {| name := name d; driverVersion := v; temperature := temperature d;
     memoryTotal := memoryTotal d; memoryUsed := memoryUsed d;
     utilizationGpu := utilizationGpu d |}.
Definition set_temperature (d : GpuData) (v : Z) : GpuData :=
  {| name := name d; driverVersion := driverVersion d; temperature := v;
     memoryTotal := memoryTotal d; memoryUsed := memoryUsed d;
     utilizationGpu := utilizationGpu d |}.
Definition set_memory (d : GpuData) (total used : double) : GpuData :=
  {| name := name d; driverVersion := driverVersion d; temperature := temperature d;
     memoryTotal := total; memoryUsed := used;
     utilizationGpu := utilizationGpu d |}.
Definition set_utilizationGpu (d : GpuData) (v : Z) : GpuData :=
  {| name := name d; driverVersion := driverVersion d; temperature := temperature d;
     memoryTotal := memoryTotal d; memoryUsed := memoryUsed d;
     utilizationGpu := v |}.

(** The local [GpuData data;] before any assignment. *)
Definition data_uninitialised (ind : Indeterminate) : GpuData :=
  {| name := ""; driverVersion := ""; temperature := u32 (ind_temperature ind);
     memoryTotal := ind_memoryTotal ind; memoryUsed := ind_memoryUsed ind;
     utilizationGpu := u32 (ind_utilizationGpu ind) |}.

Definition is_null (n : xml_node) : bool :=
  match n with
  | Some _ => false
  | None => true
  end.

(** [x /= 1024] on a double. *)
Definition div_1024 (x : double) : double := (x / (1024 # 1))%Q.

Definition parseGpuData (ind : Indeterminate) (doc : xml_document) : M GpuData :=
  let data := data_uninitialised ind in
  let gpu_node := child (doc_child doc "nvidia_smi_log") "gpu" in
  if negb (is_null gpu_node) then
    let data := set_name data (text_get (child gpu_node "product_name")) in
    let data := set_driverVersion data
                  (text_get (child (doc_child doc "nvidia_smi_log") "driver_version")) in
    (* Temperature *)
    let temperature_node := child (child gpu_node "temperature") "gpu_temp" in
    data <- (if negb (is_null temperature_node) then
               t <- stoul (text_get temperature_node) ;;
               ret (set_temperature data t)
             else ret data) ;;
    (* Memory Usage *)
    let memory_node := child gpu_node "fb_memory_usage" in
    data <- (if negb (is_null memory_node) then
               total <- stoul (text_get (child memory_node "total")) ;;
               used <- stoul (text_get (child memory_node "used")) ;;
               ret (set_memory data (div_1024 (to_double total))
                                    (div_1024 (to_double used)))
             else ret data) ;;
    (* Utilization *)
    let utilization_node := child gpu_node "utilization" in
    data <- (if negb (is_null utilization_node) then
               u <- stoul (text_get (child utilization_node "gpu_util")) ;;
               ret (set_utilizationGpu data u)
             else ret data) ;;
    ret data
  else ret data.

(** ** Window and rendering block *)

(** The globals and statics of the program, the timer of the window and
    what was written to [std::cerr]. *)
Record Globals : Type := {
  g_statsText : string;
  g_gpuDataAvailable : bool;
  g_gpuData : GpuData;
  cpu_statics : CpuStatics;
  timer_running : bool;
  cerr : string
}.

Definition globals_init : Globals :=
  {| g_statsText := "Initializing..."; g_gpuDataAvailable := false;
     g_gpuData := GpuData_zero; cpu_statics := cpu_statics_init;
     timer_running := false; cerr := "" |}.

Definition set_statsText (g : Globals) (v : string) : Globals :=
  {| g_statsText := v; g_gpuDataAvailable := g_gpuDataAvailable g;
     g_gpuData := g_gpuData g; cpu_statics := cpu_statics g;
     timer_running := timer_running g; cerr := cerr g |}.
Definition set_gpuDataAvailable (g : Globals) (v : bool) : Globals :=
  {| g_statsText := g_statsText g; g_gpuDataAvailable := v;
     g_gpuData := g_gpuData g; cpu_statics := cpu_statics g;
     timer_running := timer_running g; cerr := cerr g |}.
Definition set_gpuData (g : Globals) (v : GpuData) : Globals :=
  {| g_statsText := g_statsText g; g_gpuDataAvailable := g_gpuDataAvailable g;
     g_gpuData := v; cpu_statics := cpu_statics g;
     timer_running := timer_running g; cerr := cerr g |}.
Definition set_cpu_statics (g : Globals) (v : CpuStatics) : Globals :=
  {| g_statsText := g_statsText g; g_gpuDataAvailable := g_gpuDataAvailable g;
     g_gpuData := g_gpuData g; cpu_statics := v;
     timer_running := timer_running g; cerr := cerr g |}.
Definition set_timer (g : Globals) (v : bool) : Globals :=
  {| g_statsText := g_statsText g; g_gpuDataAvailable := g_gpuDataAvailable g;
     g_gpuData := g_gpuData g; cpu_statics := cpu_statics g;
     timer_running := v; cerr := cerr g |}.
Definition write_cerr (g : Globals) (v : string) : Globals :=
  {| g_statsText := g_statsText g; g_gpuDataAvailable := g_gpuDataAvailable g;
     g_gpuData := g_gpuData g; cpu_statics := cpu_statics g;
     timer_running := timer_running g; cerr := cerr g ++ v |}.

Definition what (ex : std_exception) : string :=
  match ex with
  | runtime_error w => w
  | invalid_argument w => w
  | out_of_range w => w
  end.

(** The [try { ... } catch (const std::exception& e) { ... }] statement of
    [refreshAllData]. *)
Definition refresh_gpu (e : Env) (g : Globals) : M Globals :=
  try_catch
    (xmlOutput <- getXmlGpuData e ;;
     if negb (empty xmlOutput) then
       match load_string e (c_str xmlOutput) with
       | Some doc =>
           data <- parseGpuData (stack e) doc ;;
           ret (set_gpuDataAvailable (set_gpuData g data) true)
       | None => ret (set_gpuDataAvailable g false)
       end
     else ret (set_gpuDataAvailable g false))
    (fun ex =>
       ret (write_cerr (set_gpuDataAvailable g false)
              ("Error getting GPU data: " ++ what ex ++ nl))).

(** The CPU/RAM lines of the report. *)
Definition cpu_ram_block (cpuUsage ramUsage : double) : string :=
  if Qle_bool 0 cpuUsage then
    "CPU Usage: " ++ put_fixed2 cpuUsage ++ "%" ++ nl
    ++ "RAM Usage: " ++ put_fixed2 ramUsage ++ " GB" ++ nl
  else "Error getting CPU/RAM usage." ++ nl.

(** The GPU lines of the report. *)
Definition gpu_block (available : bool) (d : GpuData) : string :=
  if available then
    nl ++ "--- GPU Stats ---" ++ nl
    ++ "GPU: " ++ name d ++ nl
    ++ "Temp: " ++ put_unsigned (temperature d) ++ " C" ++ nl
    ++ "VRAM: " ++ put_fixed2 (memoryUsed d) ++ " GB / "
    ++ put_fixed2 (memoryTotal d) ++ " GB" ++ nl
    ++ "GPU Util: " ++ put_unsigned (utilizationGpu d) ++ " %"
  else
    nl ++ "--- GPU Stats ---" ++ nl
    ++ "GPU data not available or initializing...".

(** [oss.str()] at the end of [refreshAllData]. *)
Definition report (cpuUsage ramUsage : double) (g : Globals) : string :=
  cpu_ram_block cpuUsage ramUsage ++ gpu_block (g_gpuDataAvailable g) (g_gpuData g).

(** [strncpy_s(dest, size, src, _TRUNCATE)]: at most [size - 1] characters
    of the C string [src]. *)
Definition strncpy_s_TRUNCATE (size : nat) (src : string) : string :=
  substr (c_str src) 0 (size - 1).

Definition refreshAllData (e : Env) (g : Globals) : M Globals :=
  '(cpuUsage, st) <- getCurrentCpuUsage (GetSystemTimes e) (cpu_statics g) ;;
  let g := set_cpu_statics g st in
  let ramUsage := getCurrentRamUsage (GlobalMemoryStatusEx e) in
  g <- refresh_gpu e g ;;
  ret (set_statsText g (strncpy_s_TRUNCATE 1024 (report cpuUsage ramUsage g))).

Definition CPU_USAGE_TIMER_ID : Z := 1.

Inductive Message : Type :=
| WM_CREATE
| WM_ENTERSIZEMOVE
| WM_EXITSIZEMOVE
| WM_TIMER (wParam : Z)
| WM_PAINT
| WM_CLOSE
| WM_DESTROY
| WM_other (msg : Z).

(** [WndProc]: the effect of one message on the globals.  Painting reads
    [g_statsText] and changes none of them. *)
Definition WndProc (e : Env) (msg : Message) (g : Globals) : M Globals :=
  match msg with
  | WM_CREATE =>
      let g := set_timer g true in
      '(_, st) <- getCurrentCpuUsage (GetSystemTimes e) (cpu_statics g) ;;
      ret (set_cpu_statics g st)
  | WM_ENTERSIZEMOVE => ret (set_timer g false)
  | WM_EXITSIZEMOVE => refreshAllData e (set_timer g true)
  | WM_TIMER wParam =>
      if wParam =? CPU_USAGE_TIMER_ID then refreshAllData e g else ret g
  | WM_PAINT => ret g
  | WM_CLOSE => ret g
  | WM_DESTROY => ret (set_timer g false)
  | WM_other _ => ret g
  end.

(** The message loop of [WinMain]: each dispatched message comes with the
    environment's answers during its handling. *)
Fixpoint dispatch_all (msgs : list (Env * Message)) (g : Globals) : M Globals :=
  match msgs with
  | [] => ret g
  | (e, msg) :: rest => g' <- WndProc e msg g ;; dispatch_all rest g'
  end.

(** ** Concrete inputs used by the examples *)

Definition filetime (z : Z) : FILETIME :=
  {| dwLowDateTime := z mod 2 ^ 32; dwHighDateTime := z / 2 ^ 32 |}.

Definition system_times (idle kernel user : Z) : SystemTimes :=
  {| idleTime := filetime idle; kernelTime := filetime kernel;
     userTime := filetime user |}.

Definition baseline (idle kernel user : Z) : CpuStatics :=
  {| previousIdleTime := idle; previousKernelTime := kernel;
     previousUserTime := user; firstCall := false |}.

(** A document with every field of the GPU record, as [nvidia-smi -q -x]
    writes them (values followed by their unit). *)
Definition sample_doc : xml_document :=
  [ element "nvidia_smi_log"
      [ element "driver_version" [ pcdata "551.23" ];
        element "gpu"
          [ element "product_name" [ pcdata "NVIDIA GeForce RTX 4090" ];
            element "fb_memory_usage"
              [ element "total" [ pcdata "24576 MiB" ];
                element "used" [ pcdata "4096 MiB" ] ];
            element "utilization" [ element "gpu_util" [ pcdata "12 %" ] ];
            element "temperature" [ element "gpu_temp" [ pcdata "65 C" ] ] ] ] ].

Definition sample_stack : Indeterminate :=
  {| ind_temperature := 3435973836; ind_memoryTotal := (7 # 1)%Q;
     ind_memoryUsed := (7 # 1)%Q; ind_utilizationGpu := 3435973836 |}.

(** A machine whose registry names an install folder that holds
    [nvidia-smi.exe], with a second copy in System32; [sys] is the answer of [GetSystemTimes], [child_output]
    the outcome of the child process and [parsed] the answer of
    [load_string]. *)
Definition sample_env (sys : option SystemTimes) (child_output : Z + string)
    (parsed : option xml_document) : Env :=
  {| GetSystemTimes := sys;
     GlobalMemoryStatusEx :=
       {| ullTotalPhys := 17179869184; ullAvailPhys := 8589934592 |};
     NVSMI_registry := RegValue "D:\NVIDIA\NVSMI";
     PathFileExistsA :=
       fun p =>
         String.eqb p "D:\NVIDIA\NVSMI\nvidia-smi.exe"
         || String.eqb p "C:\Windows\System32\nvidia-smi.exe";
     GetModuleFileNameA := "C:\Tools\stats_display.exe";
     PATH := Some "C:\Windows\System32;C:\Windows";
     CreatePipe := true;
     CreateProcessA := fun _ => child_output;
     load_string := fun _ => parsed;
     stack := sample_stack |}.

(** A well-formed document without a [gpu] element under the root. *)
Definition doc_without_gpu : xml_document :=
  [ element "nvidia_smi_log" [ element "driver_version" [ pcdata "551.23" ] ] ].

(** A GPU record whose [utilization] sub-record has no [gpu_util] child,
    one whose [fb_memory_usage] sub-record has no [total] child, and one
    with no sub-record at all. *)
Definition doc_without_gpu_util : xml_document :=
  [ element "nvidia_smi_log"
      [ element "gpu"
          [ element "product_name" [ pcdata "NVIDIA GeForce RTX 4090" ];
            element "utilization" [] ] ] ].

Definition doc_without_total : xml_document :=
  [ element "nvidia_smi_log"
      [ element "gpu"
          [ element "product_name" [ pcdata "NVIDIA GeForce RTX 4090" ];
            element "fb_memory_usage" [ element "used" [ pcdata "4096 MiB" ] ] ] ] ].

Definition doc_without_subrecords : xml_document :=
  [ element "nvidia_smi_log" [ element "gpu" [] ] ].

(** ** Texts that hold a raw integer *)

Definition starts_with_digit (s : string) : bool :=
  match s with
  | String c _ => isdigit c
  | EmptyString => false
  end.

(** [s] is the decimal numeral of the [unsigned long] [n], possibly followed
    by more text (a unit), as in ["24576 MiB"]. *)
Definition numeral_text (s : string) (n : Z) : Prop :=
  0 <= n <= ULONG_MAX /\
  exists suffix, s = put_unsigned n ++ suffix /\ starts_with_digit suffix = false.

(** The [gpu] element of [sample_doc]. *)
Definition sample_gpu : xml_node_struct :=
  element "gpu"
    [ element "product_name" [ pcdata "NVIDIA GeForce RTX 4090" ];
      element "fb_memory_usage"
        [ element "total" [ pcdata "24576 MiB" ];
          element "used" [ pcdata "4096 MiB" ] ];
      element "utilization" [ element "gpu_util" [ pcdata "12 %" ] ];
      element "temperature" [ element "gpu_temp" [ pcdata "65 C" ] ] ].

Definition sample_xml : string :=
  "<nvidia_smi_log><driver_version>551.23</driver_version><gpu>...</gpu></nvidia_smi_log>".

(** ** The priority list of the discovery, as the specification words it

    (1) the registry-configured install path, (2) the well-known absolute
    install paths, (3) the directory of the running executable, (4) the
    directories of PATH, and (5) the bare executable name when none of them
    exists. *)

Definition registry_candidate (e : Env) : list string :=
  match NVSMI_registry e with
  | RegValue value => [ add_backslash value ++ nvidia_smi_exe ]
  | _ => []
  end.

Definition exe_folder_candidate (e : Env) : list string :=
  match find_last_of (GetModuleFileNameA e) (String backslash (chr slash)) with
  | Some pos => [ substr (GetModuleFileNameA e) 0 (pos + 1) ++ nvidia_smi_exe ]
  | None => []
  end.

Definition PATH_candidates (e : Env) : list string :=
  match PATH e with
  | Some envPath =>
      map (fun dir => add_backslash dir ++ nvidia_smi_exe) (getlines ";" "" envPath)
  | None => []
  end.

Definition priority_candidates (e : Env) : list string :=
  registry_candidate e ++ commonPaths ++ exe_folder_candidate e ++ PATH_candidates e.

Definition first_existing (e : Env) : string :=
  match find (fileExists e) (priority_candidates e) with
  | Some p => p
  | None => nvidia_smi_exe
  end.

(** ** Shape of a number printed with two decimals *)

Fixpoint all_digits (s : string) : bool :=
  match s with
  | EmptyString => true
  | String c rest => isdigit c && all_digits rest
  end.

(** [s] is an optional minus sign, at least one digit, a point and exactly
    two digits. *)
Definition two_decimals (s : string) : Prop :=
  exists sign int d1 d2,
    s = sign ++ int ++ "." ++ String d1 (String d2 "") /\
    (sign = "" \/ sign = "-") /\
    all_digits int = true /\ empty int = false /\
    isdigit d1 = true /\ isdigit d2 = true.

(** ** The two floating-point formulas in IEEE-754 binary64

    Every operation is rounded to nearest, ties to even, as the hardware
    does; used to check the rational model at concrete inputs. *)
Module Binary64.

Definition prec : Z := 53.
Definition emax : Z := 1024.

(** [static_cast<double>] of an integer. *)
Definition of_Z (z : Z) : spec_float := binary_normalize prec emax z 0 false.

(** [(1.0 - (static_cast<double>(idleTimeDelta) / totalActivityTime)) * 100.0] *)
Definition usage (idleTimeDelta totalActivityTime : Z) : spec_float :=
  SFmul prec emax
    (SFsub prec emax (of_Z 1)
       (SFdiv prec emax (of_Z idleTimeDelta) (of_Z totalActivityTime)))
    (of_Z 100).

(** [x = std::stoul(...); x /= 1024;] *)
Definition MiB_to_GB (mib : Z) : spec_float :=
  SFdiv prec emax (of_Z mib) (of_Z 1024).

End Binary64.

(** ** Re-assembling what [std::getline] split *)

(** The pieces, each followed by the delimiter. *)
Fixpoint join_terminated (delim : ascii) (pieces : list string) : string :=
  match pieces with
  | [] => ""
  | p :: rest => p ++ chr delim ++ join_terminated delim rest
  end.

(** The command line that [getXmlGpuData] hands to [exec_no_console]. *)
Definition command_line (e : Env) : string :=
  let nvsmiExePath := getNVSMIPath e in
  if contains nvsmiExePath backslash || contains nvsmiExePath " "
  then chr dquote ++ nvsmiExePath ++ chr dquote ++ " -q -x"
  else nvsmiExePath ++ " -q -x".

(** ** Observations on message sequences *)

(** What a message does to the timer: [SetTimer], [KillTimer] or nothing. *)
Definition timer_effect (msg : Message) (running : bool) : bool :=
  match msg with
  | WM_CREATE | WM_EXITSIZEMOVE => true
  | WM_ENTERSIZEMOVE | WM_DESTROY => false
  | _ => running
  end.

(** The messages whose handler calls [refreshAllData]. *)
Definition triggers_refresh (msg : Message) : bool :=
  match msg with
  | WM_EXITSIZEMOVE => true
  | WM_TIMER wParam => wParam =? CPU_USAGE_TIMER_ID
  | _ => false
  end.

(** The text is the (truncated) report of some CPU and RAM figures and of
    the GPU record and flag stored right now. *)
Definition text_matches_state (g : Globals) : Prop :=
  exists cpuUsage ramUsage,
    g_statsText g = strncpy_s_TRUNCATE 1024 (report cpuUsage ramUsage g).

(** ** Painting ([WM_PAINT])

    [LONG] and [int] coordinates are integers; [/] on them truncates
    towards zero ([Z.quot]).  [DrawTextA] with [DT_CALCRECT] is the
    system's: it measures the text for the width it is given and answers
    with the rectangle whose [right] and [bottom] are the width and height
    of the laid-out text. *)
Module Paint.

Record RECT : Type := {
  left : Z;
  top : Z;
  right : Z;
  bottom : Z
}.

(** The rectangle handed to the drawing call [DrawTextA(..., DT_WORDBREAK)]. *)
Definition textRect (DrawText_CALCRECT : string -> RECT -> RECT)
    (clientRect : RECT) (text : string) : RECT :=
  (* 1. Calculate the text rectangle size *)
  let textRect :=
    {| left := 0; top := 0; right := right clientRect - left clientRect;
       bottom := 0 |} in
  let textRect := DrawText_CALCRECT text textRect in
  let textWidth := right textRect in
  let textHeight := bottom textRect in
  (* 2. Calculate the correct top and left positions for centering *)
  let top_ := Z.quot (bottom clientRect - textHeight) 2 in
  let left_ := Z.quot (right clientRect - textWidth) 2 in
  (* 3. Update the textRect with the new, centered coordinates *)
  {| left := left_; top := top_; right := left_ + textWidth;
     bottom := top_ + textHeight |}.

(** The rectangle first passed to the measuring call. *)
Definition measured_from (clientRect : RECT) : RECT :=
  {| left := 0; top := 0; right := right clientRect - left clientRect;
     bottom := 0 |}.

End Paint.

(** * Properties *)

(** ** Machine integers and checked division *)

Lemma u64_range (z : Z) : 0 <= u64 z < 2 ^ 64.
Proof. unfold u64. apply Z.mod_pos_bound. reflexivity. Qed.

Lemma u64_small (z : Z) : 0 <= z < 2 ^ 64 -> u64 z = z.
Proof. intros H. unfold u64. apply Z.mod_small. exact H. Qed.

Lemma double_div_defined (a b : Z) :
  b <> 0 -> double_div (to_double a) (to_double b) = inr (inject_Z a / inject_Z b)%Q.
Proof.
  intros Hb. unfold double_div, to_double.
  destruct (Qeq_bool (inject_Z b) 0) eqn:E; [ | reflexivity ].
  apply Qeq_bool_iff in E. unfold Qeq in E. simpl in E. lia.
Qed.

(** ** CPU sampler *)

(** The value of a call that is not the first and whose sample succeeded. *)
Lemma getCurrentCpuUsage_delta (st : CpuStatics) (now : SystemTimes) :
  firstCall st = false ->
  getCurrentCpuUsage (Some now) st =
  inr (if totalActivityTime st now =? 0 then 0%Q
       else ((1 - inject_Z (idleTimeDelta st now)
                  / inject_Z (totalActivityTime st now)) * (100 # 1))%Q,
       store_baseline now).
Proof.
  intros Hfirst. unfold getCurrentCpuUsage. rewrite Hfirst.
  destruct (totalActivityTime st now =? 0) eqn:E; [ reflexivity | ].
  apply Z.eqb_neq in E.
  rewrite (double_div_defined _ _ E). reflexivity.
Qed.

(** No call divides by zero or throws: every call returns. *)
Lemma getCurrentCpuUsage_returns (sys : option SystemTimes) (st : CpuStatics) :
  exists q st', getCurrentCpuUsage sys st = inr (q, st').
Proof.
  destruct sys as [now | ].
  - destruct (firstCall st) eqn:F.
    + unfold getCurrentCpuUsage. rewrite F. eauto.
    + rewrite (getCurrentCpuUsage_delta st now F). eauto.
  - simpl. eauto.
Qed.

Lemma usage_formula_bounds (idle total : Z) :
  0 <= idle <= total -> 0 < total ->
  (0 <= (1 - inject_Z idle / inject_Z total) * (100 # 1) <= 100 # 1)%Q.
Proof.
  intros Hi Ht.
  assert (Hq : (0 <= inject_Z idle / inject_Z total <= 1)%Q).
  { split.
    - apply Qle_shift_div_l.
      + change 0%Q with (inject_Z 0). rewrite <- Zlt_Qlt. exact Ht.
      + rewrite Qmult_0_l. change 0%Q with (inject_Z 0). rewrite <- Zle_Qle. lia.
    - apply Qle_shift_div_r.
      + change 0%Q with (inject_Z 0). rewrite <- Zlt_Qlt. exact Ht.
      + rewrite Qmult_1_l. rewrite <- Zle_Qle. lia. }
  destruct Hq as [Hq0 Hq1].
  set (q := (inject_Z idle / inject_Z total)%Q) in *.
  split.
  - apply Qmult_le_0_compat; [ | discriminate ].
    apply (Qplus_le_l _ _ q). ring_simplify. exact Hq1.
  - setoid_replace (100 # 1)%Q with (1 * (100 # 1))%Q at 2 by ring.
    apply Qmult_le_compat_r; [ | discriminate ].
    apply (Qplus_le_l _ _ q). ring_simplify.
    apply (Qplus_le_l _ _ (-(1))%Q). ring_simplify. exact Hq0.
Qed.

(** In binary64 the inputs of the examples give exactly -100, 50, 24 and 4,
    the values of the rational model. *)
Example binary64_agrees :
  Binary64.usage 10 5 = Binary64.of_Z (-100) /\
  Binary64.usage 30 60 = Binary64.of_Z 50 /\
  Binary64.MiB_to_GB 24576 = Binary64.of_Z 24 /\
  Binary64.MiB_to_GB 4096 = Binary64.of_Z 4.
Proof. repeat split; vm_compute; reflexivity. Qed.

(** C1, as stated, fails: with the previous snapshot (0, 0, 0) and the
    current one idle = 10, kernel = 5, user = 0, the kernel and user deltas
    add up to 5 > 0, and the call returns (1 - 10/5) * 100 = -100. *)
Lemma cpu_usage_below_zero :
  let st := baseline 0 0 0 in
  let now := system_times 10 5 0 in
  firstCall st = false /\
  0 < kernelTimeDelta st now + userTimeDelta st now /\
  exists q st',
    getCurrentCpuUsage (Some now) st = inr (q, st') /\
    (q == -100 # 1)%Q /\ ~ (0 <= q <= 100 # 1)%Q.
Proof.
  cbv zeta. split; [ reflexivity | ]. split; [ vm_compute; reflexivity | ].
  eexists. eexists. split; [ vm_compute; reflexivity | ].
  split; [ reflexivity | ].
  intros [H _]. vm_compute in H. apply H. reflexivity.
Qed.

(** C1, amended: on a call that is not the first, when the 64-bit sum of
    the kernel and user deltas is strictly positive and the idle delta does
    not exceed it (kernel time includes idle time), the returned usage lies
    in [0, 100]. *)
Theorem cpu_usage_in_range (st : CpuStatics) (now : SystemTimes) :
  firstCall st = false ->
  0 < totalActivityTime st now ->
  idleTimeDelta st now <= totalActivityTime st now ->
  exists q,
    getCurrentCpuUsage (Some now) st = inr (q, store_baseline now) /\
    (0 <= q <= 100 # 1)%Q.
Proof.
  intros Hfirst Hpos Hidle.
  rewrite (getCurrentCpuUsage_delta st now Hfirst).
  destruct (totalActivityTime st now =? 0) eqn:E.
  - apply Z.eqb_eq in E. lia.
  - eexists. split; [ reflexivity | ].
    apply usage_formula_bounds; [ | exact Hpos ].
    split; [ | exact Hidle ]. apply u64_range.
Qed.

Lemma cpu_usage_in_range_witness :
  exists q,
    getCurrentCpuUsage (Some (system_times 130 200 60)) (baseline 100 150 50)
    = inr (q, store_baseline (system_times 130 200 60)) /\
    (0 <= q <= 100 # 1)%Q.
Proof.
  apply (cpu_usage_in_range (baseline 100 150 50) (system_times 130 200 60)).
  - reflexivity.
  - vm_compute. reflexivity.
  - vm_compute. discriminate.
Defined.

(** C9: on a call that is not the first, when the 64-bit sum of the kernel
    and user deltas is 0, the call returns 0.0 normally (the division is
    not reached) and stores the current snapshot. *)
Theorem cpu_usage_zero_activity (st : CpuStatics) (now : SystemTimes) :
  firstCall st = false ->
  totalActivityTime st now = 0 ->
  getCurrentCpuUsage (Some now) st = inr (0%Q, store_baseline now).
Proof.
  intros Hfirst Hzero.
  rewrite (getCurrentCpuUsage_delta st now Hfirst), Hzero. reflexivity.
Qed.

Lemma cpu_usage_zero_activity_witness :
  getCurrentCpuUsage (Some (system_times 130 200 60)) (baseline 100 200 60)
  = inr (0%Q, store_baseline (system_times 130 200 60)).
Proof.
  apply (cpu_usage_zero_activity (baseline 100 200 60) (system_times 130 200 60)).
  - reflexivity.
  - vm_compute. reflexivity.
Defined.

(** A call whose sample succeeded stores the current snapshot. *)
Lemma getCurrentCpuUsage_success (now : SystemTimes) (st : CpuStatics) :
  exists q, getCurrentCpuUsage (Some now) st = inr (q, store_baseline now).
Proof.
  destruct (firstCall st) eqn:F.
  - unfold getCurrentCpuUsage. rewrite F. eauto.
  - rewrite (getCurrentCpuUsage_delta st now F). eauto.
Qed.

(** C7, as stated, fails: a call during which [GetSystemTimes] fails returns
    -1.0 before the assignments; the baseline stored by the previous call
    (idle = 100, kernel = 150, user = 50) is still in place afterwards. *)
Lemma failed_sample_keeps_baseline :
  let st := store_baseline (system_times 100 150 50) in
  exists q st',
    getCurrentCpuUsage None st = inr (q, st') /\
    (q == -1 # 1)%Q /\
    previousIdleTime st' = 100 /\ previousKernelTime st' = 150 /\
    previousUserTime st' = 50.
Proof.
  cbv zeta. eexists. eexists. split; [ reflexivity | ].
  split; [ reflexivity | ]. vm_compute. auto.
Qed.

(** C7, amended: every call during which [GetSystemTimes] succeeds
    overwrites the three baseline counters with the current snapshot (and
    clears [firstCall]); a call during which it fails returns -1.0 and
    leaves the statics as they were. *)
Theorem successful_sample_overwrites_baseline :
  (forall (now : SystemTimes) (st : CpuStatics),
      exists q st',
        getCurrentCpuUsage (Some now) st = inr (q, st') /\
        previousIdleTime st' = FileTimeToInt64 (idleTime now) /\
        previousKernelTime st' = FileTimeToInt64 (kernelTime now) /\
        previousUserTime st' = FileTimeToInt64 (userTime now) /\
        firstCall st' = false) /\
  (forall st : CpuStatics,
      getCurrentCpuUsage None st = inr ((-1 # 1)%Q, st)).
Proof.
  split.
  - intros now st. destruct (getCurrentCpuUsage_success now st) as (q & E).
    exists q, (store_baseline now). repeat split. exact E.
  - intros st. reflexivity.
Qed.

Lemma firstCall_stays_false (sys : option SystemTimes) (st st' : CpuStatics) (q : double) :
  getCurrentCpuUsage sys st = inr (q, st') ->
  firstCall st = false -> firstCall st' = false.
Proof.
  intros H F. destruct sys as [now | ].
  - rewrite (getCurrentCpuUsage_delta st now F) in H.
    injection H as _ <-. reflexivity.
  - simpl in H. injection H as _ <-. exact F.
Qed.

(** ** GPU refresh *)

Lemma stoul_no_division (s : string) : stoul s <> inl division_by_zero.
Proof.
  unfold stoul.
  match goal with
  | |- context [let '(_, _) := ?X in _] => destruct X as [negative s']
  end.
  destruct (read_digits s' None) as [m | ];
    [ destruct (ULONG_MAX <? m) | ]; discriminate.
Qed.

Ltac case_stoul :=
  match goal with
  | |- context [stoul ?x] =>
      let E := fresh "E" in
      destruct (stoul x) as [[? | ] | ?] eqn:E;
      [ | exfalso; exact (stoul_no_division _ E) | ]; cbn
  end.

Lemma parseGpuData_no_division (ind : Indeterminate) (doc : xml_document) :
  parseGpuData ind doc <> inl division_by_zero.
Proof.
  unfold parseGpuData.
  destruct (is_null (child (doc_child doc "nvidia_smi_log") "gpu")); cbn;
    [ discriminate | ].
  destruct (is_null (child (child (child (doc_child doc "nvidia_smi_log") "gpu")
                             "temperature") "gpu_temp")); cbn;
    [ | case_stoul; [ discriminate | ] ];
    (destruct (is_null (child (child (doc_child doc "nvidia_smi_log") "gpu")
                         "fb_memory_usage")); cbn;
     [ | case_stoul; [ discriminate | ]; case_stoul; [ discriminate | ] ];
     (destruct (is_null (child (child (doc_child doc "nvidia_smi_log") "gpu")
                          "utilization")); cbn;
      [ discriminate | case_stoul; discriminate ])).
Qed.

Lemma getXmlGpuData_no_division (e : Env) : getXmlGpuData e <> inl division_by_zero.
Proof.
  unfold getXmlGpuData, exec_no_console.
  destruct (negb (CreatePipe e)); [ discriminate | ].
  match goal with
  | |- context [CreateProcessA e ?c] => destruct (CreateProcessA e c)
  end; discriminate.
Qed.

(** What the [try]/[catch] statement leaves behind: either the parsed
    record, stored with the flag set, or the flag cleared and everything
    else but the log untouched. *)
Lemma refresh_gpu_cases (e : Env) (g : Globals) :
  (exists s doc data,
      getXmlGpuData e = inr s /\ empty s = false /\
      load_string e (c_str s) = Some doc /\
      parseGpuData (stack e) doc = inr data /\
      refresh_gpu e g = inr (set_gpuDataAvailable (set_gpuData g data) true))
  \/
  (exists g',
      refresh_gpu e g = inr g' /\
      g_gpuDataAvailable g' = false /\ g_gpuData g' = g_gpuData g /\
      cpu_statics g' = cpu_statics g /\ timer_running g' = timer_running g /\
      g_statsText g' = g_statsText g /\
      ((exists s, getXmlGpuData e = inr s /\ empty s = true) \/
       (exists s, getXmlGpuData e = inr s /\ load_string e (c_str s) = None) \/
       (exists ex, getXmlGpuData e = inl (thrown ex)) \/
       (exists s doc ex, getXmlGpuData e = inr s /\
                         load_string e (c_str s) = Some doc /\
                         parseGpuData (stack e) doc = inl (thrown ex)))).
Proof.
  unfold refresh_gpu.
  destruct (getXmlGpuData e) as [[ex | ] | s] eqn:X; cbn.
  - right. eexists. split; [ reflexivity | ]. cbn. repeat split. eauto 6.
  - exfalso. exact (getXmlGpuData_no_division e X).
  - destruct (empty s) eqn:Es; cbn.
    + right. eexists. split; [ reflexivity | ]. cbn. repeat split. eauto 6.
    + destruct (load_string e (c_str s)) as [doc | ] eqn:L; cbn.
      * destruct (parseGpuData (stack e) doc) as [[ex | ] | data] eqn:P; cbn.
        -- right. eexists. split; [ reflexivity | ]. cbn. repeat split.
           right. right. right. eauto 6.
        -- exfalso. exact (parseGpuData_no_division _ _ P).
        -- left. exists s, doc, data. repeat split; assumption.
      * right. eexists. split; [ reflexivity | ]. cbn. repeat split. eauto 6.
Qed.

Lemma refresh_gpu_returns (e : Env) (g : Globals) :
  exists g', refresh_gpu e g = inr g' /\ cpu_statics g' = cpu_statics g.
Proof.
  destruct (refresh_gpu_cases e g) as [(s & doc & data & _ & _ & _ & _ & R) | (g' & R & H)].
  - eexists. split; [ exact R | reflexivity ].
  - exists g'. split; [ exact R | tauto ].
Qed.

(** [refreshAllData] always returns; the report it stores is built from
    the CPU sample of this very call and from the globals left by the GPU
    step. *)
Lemma refreshAllData_unfold (e : Env) (g : Globals) :
  exists cpuUsage st g1,
    getCurrentCpuUsage (GetSystemTimes e) (cpu_statics g) = inr (cpuUsage, st) /\
    refresh_gpu e (set_cpu_statics g st) = inr g1 /\
    cpu_statics g1 = st /\
    refreshAllData e g =
    inr (set_statsText g1
           (strncpy_s_TRUNCATE 1024
              (report cpuUsage (getCurrentRamUsage (GlobalMemoryStatusEx e)) g1))).
Proof.
  destruct (getCurrentCpuUsage_returns (GetSystemTimes e) (cpu_statics g))
    as (q & st & C).
  destruct (refresh_gpu_returns e (set_cpu_statics g st)) as (g1 & R & K).
  exists q, st, g1. repeat split; try assumption.
  unfold refreshAllData. rewrite C. cbn. rewrite R. reflexivity.
Qed.

(** C2, as stated, fails on its third input: for a well-formed document
    that has the root [nvidia_smi_log] but no [gpu] element, [parseGpuData]
    returns normally and the refresh sets the available flag. *)
Lemma missing_gpu_record_marked_available :
  let e := sample_env (Some (system_times 130 200 60))
             (inr "<nvidia_smi_log><driver_version>551.23</driver_version></nvidia_smi_log>")
             (Some doc_without_gpu) in
  child (doc_child doc_without_gpu "nvidia_smi_log") "gpu" = None /\
  exists g',
    refreshAllData e globals_init = inr g' /\ g_gpuDataAvailable g' = true.
Proof.
  cbv zeta. split; [ reflexivity | ].
  eexists. split; [ vm_compute; reflexivity | reflexivity ].
Qed.

(** C2, amended: no refresh lets an exception out.  When the captured
    output is empty or [load_string] rejects it, the refresh clears the
    available flag.  When the document is well formed but has no
    [nvidia_smi_log/gpu] element, [parseGpuData] returns normally and the
    refresh sets the available flag; the record it stores has an empty name
    and an empty driver version. *)
Theorem gpu_refresh_unavailable (e : Env) (g : Globals) :
  exists g',
    refreshAllData e g = inr g' /\
    (forall s,
        getXmlGpuData e = inr s ->
        empty s = true \/ load_string e (c_str s) = None ->
        g_gpuDataAvailable g' = false) /\
    (forall s doc,
        getXmlGpuData e = inr s -> empty s = false ->
        load_string e (c_str s) = Some doc ->
        child (doc_child doc "nvidia_smi_log") "gpu" = None ->
        g_gpuDataAvailable g' = true /\
        name (g_gpuData g') = "" /\ driverVersion (g_gpuData g') = "").
Proof.
  destruct (refreshAllData_unfold e g) as (q & st & g1 & _ & R & _ & ->).
  eexists. split; [ reflexivity | ]. cbn.
  unfold refresh_gpu in R. split.
  - intros s X [Es | L]; rewrite X in R; cbn in R.
    + rewrite Es in R. cbn in R. injection R as <-. reflexivity.
    + destruct (empty s); cbn in R.
      * injection R as <-. reflexivity.
      * rewrite L in R. injection R as <-. reflexivity.
  - intros s doc X Es L G. rewrite X in R. cbn in R.
    rewrite Es in R. cbn in R. rewrite L in R.
    unfold parseGpuData in R. rewrite G in R. cbn in R.
    injection R as <-. repeat split.
Qed.

Lemma gpu_refresh_unavailable_witness :
  let e := sample_env (Some (system_times 130 200 60)) (inr "") None in
  exists g',
    refreshAllData e globals_init = inr g' /\ g_gpuDataAvailable g' = false.
Proof.
  cbv zeta.
  destruct (gpu_refresh_unavailable
              (sample_env (Some (system_times 130 200 60)) (inr "") None)
              globals_init) as (g' & R & H & _).
  exists g'. split; [ exact R | ].
  apply (H ""); [ reflexivity | left; reflexivity ].
Defined.

(** C3 fails on the code: [parseGpuData] throws [std::invalid_argument]
    (from [std::stoul] on the empty text) when the [utilization] sub-record
    lacks [gpu_util] or the [fb_memory_usage] sub-record lacks [total]; and
    with no sub-record at all the scalar members are whatever the
    uninitialised local held, here 3435973836 and 7, not zero. *)
Theorem parseGpuData_missing_children :
  (forall ind,
      parseGpuData ind doc_without_gpu_util
      = inl (thrown (invalid_argument "invalid stoul argument"))) /\
  (forall ind,
      parseGpuData ind doc_without_total
      = inl (thrown (invalid_argument "invalid stoul argument"))) /\
  parseGpuData sample_stack doc_without_subrecords
  = inr {| name := ""; driverVersion := ""; temperature := 3435973836;
           memoryTotal := (7 # 1)%Q; memoryUsed := (7 # 1)%Q;
           utilizationGpu := 3435973836 |}.
Proof.
  split; [ | split ]; try intros ind; reflexivity.
Qed.

(** ** [std::stoul] reads back what [operator<<] writes *)

Lemma digit_char_spec (d : Z) :
  0 <= d < 10 ->
  isdigit (digit_char d) = true /\ digit_value (digit_char d) = d /\
  isspace (digit_char d) = false /\
  digit_char d <> "-"%char /\ digit_char d <> "+"%char.
Proof.
  intros H.
  assert (K : d = 0 \/ d = 1 \/ d = 2 \/ d = 3 \/ d = 4 \/ d = 5 \/ d = 6
              \/ d = 7 \/ d = 8 \/ d = 9) by lia.
  repeat (destruct K as [-> | K]); try subst d; repeat split; discriminate.
Qed.

Lemma digits_fuel_app (fuel : nat) (n : Z) (acc suffix : string) :
  digits_fuel fuel n acc ++ suffix = digits_fuel fuel n (acc ++ suffix).
Proof.
  revert n acc. induction fuel as [ | fuel IH ]; intros n acc; cbn.
  - reflexivity.
  - destruct (n <? 10); [ reflexivity | ]. rewrite IH. reflexivity.
Qed.

Definition acc_value (a : option Z) : Z :=
  match a with
  | Some x => x
  | None => 0
  end.

Lemma read_digits_digits_fuel (fuel : nat) :
  forall (n : Z) (acc : string) (a : option Z),
    0 <= n < 2 ^ Z.of_nat (S fuel) ->
    exists k, 0 <= k /\
      read_digits (digits_fuel (S fuel) n acc) a
      = read_digits acc (Some (10 ^ k * acc_value a + n)).
Proof.
  induction fuel as [ | fuel IH ]; intros n acc a Hn.
  - exists 1. split; [ lia | ].
    change (2 ^ Z.of_nat 1) with 2 in Hn.
    cbn [digits_fuel]. replace (n <? 10) with true by (symmetry; apply Z.ltb_lt; lia).
    rewrite Z.mod_small by lia.
    destruct (digit_char_spec n ltac:(lia)) as (D & V & _).
    cbn [read_digits]. rewrite D, V. f_equal.
  - remember (S fuel) as f eqn:Ef.
    cbn [digits_fuel].
    assert (Hd : 0 <= n mod 10 < 10) by (apply Z.mod_pos_bound; lia).
    destruct (digit_char_spec (n mod 10) Hd) as (D & V & _).
    destruct (n <? 10) eqn:L.
    + apply Z.ltb_lt in L. exists 1. split; [ lia | ].
      cbn [read_digits]. rewrite D, V. rewrite Z.mod_small by lia. f_equal.
    + apply Z.ltb_ge in L. subst f.
      assert (Hq : 0 <= n / 10 < 2 ^ Z.of_nat (S fuel)).
      { split; [ apply Z.div_pos; lia | ].
        apply Z.div_lt_upper_bound; [ lia | ].
        rewrite Nat2Z.inj_succ, Z.pow_succ_r in Hn by lia. lia. }
      destruct (IH (n / 10) (String (digit_char (n mod 10)) acc) a Hq)
        as (k & Hk & E).
      exists (k + 1). split; [ lia | ].
      rewrite E. cbn [read_digits]. rewrite D, V. f_equal. f_equal.
      rewrite Z.pow_add_r by lia.
      pose proof (Z.div_mod n 10 ltac:(lia)). lia.
Qed.

Lemma digits_fuel_head (fuel : nat) :
  forall (n : Z) (c : ascii) (rest : string),
    isdigit c = true ->
    exists d, 0 <= d < 10 /\ exists rest',
      digits_fuel fuel n (String c rest) = String (digit_char d) rest'
      \/ (digits_fuel fuel n (String c rest) = String c rest').
Proof.
  induction fuel as [ | fuel IH ]; intros n c rest Hc.
  - exists 0. split; [ lia | ]. exists rest. right. reflexivity.
  - cbn [digits_fuel].
    assert (Hd : 0 <= n mod 10 < 10) by (apply Z.mod_pos_bound; lia).
    destruct (n <? 10).
    + exists (n mod 10). split; [ exact Hd | ]. eexists. left. reflexivity.
    + destruct (digit_char_spec _ Hd) as (D & _).
      destruct (IH (n / 10) (digit_char (n mod 10)) (String c rest) D)
        as (d & Hd' & rest' & [E | E]).
      * exists d. split; [ exact Hd' | ]. exists rest'. left. exact E.
      * exists (n mod 10). split; [ exact Hd | ]. exists rest'. left. exact E.
Qed.

(** A numeral starts with a decimal digit. *)
Lemma put_unsigned_head (n : Z) (suffix : string) :
  exists d rest, 0 <= d < 10 /\ put_unsigned n ++ suffix = String (digit_char d) rest.
Proof.
  unfold put_unsigned. rewrite digits_fuel_app. cbn [digits_fuel].
  assert (Hd : 0 <= n mod 10 < 10) by (apply Z.mod_pos_bound; lia).
  destruct (n <? 10).
  - exists (n mod 10). eexists. split; [ exact Hd | reflexivity ].
  - destruct (digit_char_spec _ Hd) as (D & _).
    destruct (digits_fuel_head (Z.to_nat (Z.log2 n)) (n / 10)
                (digit_char (n mod 10)) ("" ++ suffix) D)
      as (d & Hd' & rest' & [E | E]).
    + exists d, rest'. split; [ exact Hd' | exact E ].
    + exists (n mod 10), rest'. split; [ exact Hd | exact E ].
Qed.

Lemma read_digits_stop (s : string) (a : option Z) :
  starts_with_digit s = false -> read_digits s a = a.
Proof.
  destruct s as [ | c rest ]; cbn; [ reflexivity | ].
  intros ->. reflexivity.
Qed.

Lemma stoul_numeral (s : string) (n : Z) : numeral_text s n -> stoul s = inr n.
Proof.
  intros [Hn (suffix & -> & Hs)].
  assert (R : read_digits (put_unsigned n ++ suffix) None = Some n).
  { unfold put_unsigned. rewrite digits_fuel_app.
    destruct (read_digits_digits_fuel (Z.to_nat (Z.log2 n)) n ("" ++ suffix) None)
      as (k & _ & E).
    - split; [ lia | ].
      destruct (Z.eq_dec n 0) as [-> | Hnz]; [ reflexivity | ].
      rewrite Nat2Z.inj_succ, Z2Nat.id by apply Z.log2_nonneg.
      apply Z.log2_spec. lia.
    - rewrite E. cbn [acc_value]. rewrite Z.mul_0_r, Z.add_0_l.
      apply read_digits_stop. exact Hs. }
  destruct (put_unsigned_head n suffix) as (d & rest & Hd & E).
  rewrite E in R |- *.
  destruct (digit_char_spec d Hd) as (_ & _ & Sp & Mi & Pl).
  unfold stoul. cbn [skip_spaces]. rewrite Sp.
  assert (Sign :
    (let '(negative, s0) :=
       match String (digit_char d) rest with
       | String "-" r => (true, r)
       | String "+" r => (false, r)
       | _ => (false, String (digit_char d) rest)
       end in
     match read_digits s0 None with
     | None => throw (invalid_argument "invalid stoul argument")
     | Some magnitude =>
         if ULONG_MAX <? magnitude
         then throw (out_of_range "stoul argument out of range")
         else ret (if negative then u32 (- magnitude) else magnitude)
     end) = inr n).
  { destruct (digit_char d) as [[] [] [] [] [] [] [] []];
      try (exfalso; apply Mi; reflexivity);
      try (exfalso; apply Pl; reflexivity);
      cbv beta iota zeta; rewrite R;
      replace (ULONG_MAX <? n) with false by (symmetry; apply Z.ltb_ge; lia);
      reflexivity. }
  exact Sign.
Qed.

Lemma numeral_text_not_empty (n : Z) : ~ numeral_text "" n.
Proof.
  intros [_ (suffix & E & _)].
  destruct (put_unsigned_head n suffix) as (d & rest & _ & H).
  rewrite H in E. discriminate.
Qed.

Lemma numeral_text_of_child (nd : xml_node) (nm : string) (n : Z) :
  numeral_text (text_get (child nd nm)) n ->
  is_null nd = false /\ is_null (child nd nm) = false.
Proof.
  intros H. split.
  - destruct nd as [x | ]; [ reflexivity | ].
    exfalso. exact (numeral_text_not_empty n H).
  - destruct (child nd nm) as [x | ]; [ reflexivity | ].
    exfalso. exact (numeral_text_not_empty n H).
Qed.

(** ** Texts short enough for the buffer *)

Lemma append_nil_r (s : string) : s ++ "" = s.
Proof. induction s as [ | c s IH ]; cbn; [ | rewrite IH ]; reflexivity. Qed.

Lemma append_assoc (a b c : string) : (a ++ b) ++ c = a ++ b ++ c.
Proof. induction a as [ | x a IH ]; cbn; [ | rewrite IH ]; reflexivity. Qed.

Lemma contains_append (a b : string) (c : ascii) :
  contains (a ++ b) c = contains a c || contains b c.
Proof.
  induction a as [ | x a IH ]; cbn; [ reflexivity | ].
  rewrite IH. apply orb_assoc.
Qed.

Lemma length_substring (s : string) :
  forall n m, (String.length (substring n m s) <= m)%nat.
Proof.
  induction s as [ | c s IH ]; intros n m.
  - destruct n, m; cbn; lia.
  - destruct n as [ | n ].
    + destruct m as [ | m ]; cbn; [ lia | ]. specialize (IH O m). lia.
    + cbn. apply IH.
Qed.

Lemma contains_substring (s : string) (c : ascii) :
  forall n m, contains s c = false -> contains (substring n m s) c = false.
Proof.
  induction s as [ | x s IH ]; intros n m H.
  - destruct n, m; reflexivity.
  - cbn in H. apply orb_false_elim in H. destruct H as [Hx Hs].
    destruct n as [ | n ].
    + destruct m as [ | m ]; cbn; [ reflexivity | ].
      rewrite Hx. cbn. apply IH. exact Hs.
    + cbn. apply IH. exact Hs.
Qed.

Lemma c_str_no_NUL (s : string) : contains (c_str s) NUL = false.
Proof.
  induction s as [ | c s IH ]; cbn; [ reflexivity | ].
  destruct (Ascii.eqb c NUL) eqn:E; cbn; [ reflexivity | ].
  rewrite E. exact IH.
Qed.

Lemma digits_fuel_all_digits (fuel : nat) :
  forall (n : Z) (acc : string),
    all_digits acc = true -> all_digits (digits_fuel fuel n acc) = true.
Proof.
  induction fuel as [ | fuel IH ]; intros n acc H; cbn [digits_fuel].
  - exact H.
  - assert (Hd : 0 <= n mod 10 < 10) by (apply Z.mod_pos_bound; lia).
    destruct (digit_char_spec _ Hd) as (D & _).
    assert (A : all_digits (String (digit_char (n mod 10)) acc) = true)
      by (cbn [all_digits]; rewrite D, H; reflexivity).
    destruct (n <? 10); [ exact A | apply IH; exact A ].
Qed.

Lemma put_unsigned_all_digits (n : Z) :
  all_digits (put_unsigned n) = true /\ empty (put_unsigned n) = false.
Proof.
  split.
  - apply digits_fuel_all_digits. reflexivity.
  - destruct (put_unsigned_head n "") as (d & rest & _ & E).
    assert (K : forall s, s ++ "" = s)
      by (induction s as [ | c s IH ]; cbn; [ | rewrite IH ]; reflexivity).
    rewrite K in E. rewrite E. reflexivity.
Qed.

Lemma usage_formula_le_100 (idle total : Z) :
  0 <= idle -> 0 < total ->
  ((1 - inject_Z idle / inject_Z total) * (100 # 1) <= 100 # 1)%Q.
Proof.
  intros Hi Ht.
  assert (Hq : (0 <= inject_Z idle / inject_Z total)%Q).
  { apply Qle_shift_div_l.
    - change 0%Q with (inject_Z 0). rewrite <- Zlt_Qlt. exact Ht.
    - rewrite Qmult_0_l. change 0%Q with (inject_Z 0). rewrite <- Zle_Qle. lia. }
  set (q := (inject_Z idle / inject_Z total)%Q) in *.
  setoid_replace (100 # 1)%Q with (1 * (100 # 1))%Q at 2 by ring.
  apply Qmult_le_compat_r; [ | discriminate ].
  apply (Qplus_le_l _ _ q). ring_simplify.
  apply (Qplus_le_l _ _ (-(1))%Q). ring_simplify. exact Hq.
Qed.

Lemma length_append (a b : string) :
  String.length (a ++ b) = (String.length a + String.length b)%nat.
Proof. induction a as [ | x a IH ]; cbn; [ | rewrite IH ]; reflexivity. Qed.

Lemma substring_all (s : string) :
  forall n, (String.length s <= n)%nat -> substring 0 n s = s.
Proof.
  induction s as [ | c s IH ]; intros n H.
  - destruct n; reflexivity.
  - destruct n as [ | n ]; cbn in H; [ lia | ].
    cbn. rewrite IH by lia. reflexivity.
Qed.

Lemma c_str_fixed (s : string) : contains s NUL = false -> c_str s = s.
Proof.
  induction s as [ | c s IH ]; cbn; [ reflexivity | ].
  intros H. apply orb_false_elim in H. destruct H as [Hc Hs].
  rewrite Hc, (IH Hs). reflexivity.
Qed.

(** A NUL-free text of at most 1023 characters is copied whole. *)
Lemma strncpy_s_TRUNCATE_fits (s : string) :
  (String.length s <= 1023)%nat -> contains s NUL = false ->
  strncpy_s_TRUNCATE 1024 s = s.
Proof.
  intros L N. unfold strncpy_s_TRUNCATE, substr.
  rewrite (c_str_fixed s N). apply substring_all. exact L.
Qed.

Lemma isdigit_not_NUL (c : ascii) : isdigit c = true -> Ascii.eqb c NUL = false.
Proof.
  intros D. destruct (Ascii.eqb c NUL) eqn:E; [ | reflexivity ].
  apply Ascii.eqb_eq in E. subst c. discriminate D.
Qed.

Lemma all_digits_no_NUL (s : string) :
  all_digits s = true -> contains s NUL = false.
Proof.
  induction s as [ | c s IH ]; cbn; [ reflexivity | ].
  intros H. apply andb_prop in H. destruct H as [Hc Hs].
  rewrite (isdigit_not_NUL c Hc), (IH Hs). reflexivity.
Qed.

Lemma length_digits_fuel (fuel : nat) :
  forall (n : Z) (acc : string),
    (String.length (digits_fuel fuel n acc) <= fuel + String.length acc)%nat.
Proof.
  induction fuel as [ | fuel IH ]; intros n acc; cbn [digits_fuel].
  - cbn. lia.
  - destruct (n <? 10).
    + cbn. lia.
    + specialize (IH (n / 10) (String (digit_char (n mod 10)) acc)).
      cbn [String.length] in IH. lia.
Qed.

Lemma length_put_unsigned (n N : Z) :
  0 <= n <= N ->
  (String.length (put_unsigned n) <= S (Z.to_nat (Z.log2 N)))%nat.
Proof.
  intros H. unfold put_unsigned.
  pose proof (length_digits_fuel (S (Z.to_nat (Z.log2 n))) n "") as L.
  cbn [String.length] in L.
  pose proof (Z.log2_le_mono n N ltac:(lia)).
  pose proof (Z.log2_nonneg n). lia.
Qed.

Lemma round_half_even_bounds (x : Q) (N : Z) :
  (0 <= x)%Q -> (x <= inject_Z N)%Q -> 0 <= round_half_even x <= N.
Proof.
  intros H0 HN. unfold round_half_even.
  assert (F0 : 0 <= Qfloor x).
  { change 0 with (Qfloor 0). apply Qfloor_resp_le. exact H0. }
  assert (FN : Qfloor x <= N).
  { rewrite <- (Qfloor_Z N). apply Qfloor_resp_le. exact HN. }
  assert (Up : (1 # 2 <= x - inject_Z (Qfloor x))%Q -> Qfloor x < N).
  { intros C. rewrite Zlt_Qlt.
    apply Qlt_le_trans with x; [ | exact HN ].
    apply Qlt_minus_iff.
    apply Qlt_le_trans with (1 # 2)%Q; [ reflexivity | exact C ]. }
  destruct (x - inject_Z (Qfloor x) ?= 1 # 2)%Q eqn:C.
  - apply Qeq_alt in C.
    assert (K : Qfloor x < N) by (apply Up; rewrite C; apply Qle_refl).
    destruct (Z.even (Qfloor x)); lia.
  - lia.
  - apply Qgt_alt in C.
    assert (K : Qfloor x < N) by (apply Up; apply Qlt_le_weak; exact C).
    lia.
Qed.

Lemma put_fixed2_short (x : double) (N : Z) :
  (Qabs x <= inject_Z N)%Q ->
  (String.length (put_fixed2 x) <= 4 + S (Z.to_nat (Z.log2 N)))%nat /\
  contains (put_fixed2 x) NUL = false.
Proof.
  intros H. unfold put_fixed2.
  set (n := round_half_even (Qabs x * (100 # 1))).
  assert (Hn : 0 <= n <= N * 100).
  { apply round_half_even_bounds.
    - apply Qmult_le_0_compat; [ apply Qabs_nonneg | discriminate ].
    - rewrite inject_Z_mult. apply Qmult_le_compat_r; [ exact H | discriminate ]. }
  assert (Hq : 0 <= n / 100 <= N).
  { split; [ apply Z.div_pos; lia | apply Z.div_le_upper_bound; lia ]. }
  assert (H1 : 0 <= n mod 100 / 10 < 10).
  { pose proof (Z.mod_pos_bound n 100 ltac:(lia)).
    split; [ apply Z.div_pos; lia | apply Z.div_lt_upper_bound; lia ]. }
  assert (H2 : 0 <= n mod 10 < 10) by (apply Z.mod_pos_bound; lia).
  destruct (digit_char_spec _ H1) as (D1 & _).
  destruct (digit_char_spec _ H2) as (D2 & _).
  pose proof (length_put_unsigned (n / 100) N Hq) as L.
  destruct (put_unsigned_all_digits (n / 100)) as [A _].
  split.
  - rewrite !length_append. cbn [String.length].
    destruct (x ?= 0)%Q; cbn [String.length]; lia.
  - rewrite !contains_append. rewrite (all_digits_no_NUL _ A).
    cbn [contains]. rewrite (isdigit_not_NUL _ D1), (isdigit_not_NUL _ D2).
    destruct (x ?= 0)%Q; reflexivity.
Qed.

Lemma getCurrentRamUsage_bounds (memInfo : MEMORYSTATUSEX) :
  (0 <= getCurrentRamUsage memInfo)%Q /\
  (getCurrentRamUsage memInfo <= inject_Z (2 ^ 34))%Q.
Proof.
  unfold getCurrentRamUsage.
  set (used := u64 (u64 (ullTotalPhys memInfo) - u64 (ullAvailPhys memInfo))).
  assert (R : 0 <= used < 2 ^ 64) by apply u64_range.
  split.
  - unfold to_double, Qle, Qdiv, Qmult, Qinv, inject_Z. cbn. lia.
  - unfold to_double, Qle, Qdiv, Qmult, Qinv, inject_Z. cbn. lia.
Qed.

Lemma getCurrentCpuUsage_le_100 (sys : option SystemTimes) (st st' : CpuStatics)
    (q : double) :
  getCurrentCpuUsage sys st = inr (q, st') -> (q <= 100 # 1)%Q.
Proof.
  destruct sys as [now | ].
  - destruct (firstCall st) eqn:F.
    + unfold getCurrentCpuUsage. rewrite F. intros H. injection H as <- _.
      discriminate.
    + rewrite (getCurrentCpuUsage_delta st now F). intros H. injection H as <- _.
      destruct (totalActivityTime st now =? 0) eqn:E; [ discriminate | ].
      apply Z.eqb_neq in E.
      apply usage_formula_le_100.
      * apply u64_range.
      * pose proof (u64_range (kernelTimeDelta st now + userTimeDelta st now)).
        unfold totalActivityTime in *. lia.
  - cbn. intros H. injection H as <- _. discriminate.
Qed.

(** The CPU/RAM block of a refresh is short and has no NUL. *)
Lemma cpu_ram_block_short (cpuUsage ramUsage : double) :
  (cpuUsage <= 100 # 1)%Q ->
  (0 <= ramUsage)%Q -> (ramUsage <= inject_Z (2 ^ 34))%Q ->
  (String.length (cpu_ram_block cpuUsage ramUsage) <= 100)%nat /\
  contains (cpu_ram_block cpuUsage ramUsage) NUL = false.
Proof.
  intros Hc Hr0 Hr. unfold cpu_ram_block.
  destruct (Qle_bool 0 cpuUsage) eqn:P; [ | split; [ cbn; lia | reflexivity ] ].
  apply Qle_bool_iff in P.
  destruct (put_fixed2_short cpuUsage 100) as [Lc Nc].
  { rewrite Qabs_pos by exact P. exact Hc. }
  destruct (put_fixed2_short ramUsage (2 ^ 34)) as [Lr Nr].
  { rewrite Qabs_pos by exact Hr0. exact Hr. }
  change (Z.to_nat (Z.log2 100)) with 6%nat in Lc.
  change (Z.to_nat (Z.log2 (2 ^ 34))) with 34%nat in Lr.
  split.
  - rewrite !length_append. cbn [String.length nl chr]. lia.
  - rewrite !contains_append, Nc, Nr. reflexivity.
Qed.

(** A report whose GPU part is at most 923 characters long is stored
    whole. *)
Lemma report_fits (cpuUsage ramUsage : double) (gpu_part : string) :
  (cpuUsage <= 100 # 1)%Q ->
  (0 <= ramUsage)%Q -> (ramUsage <= inject_Z (2 ^ 34))%Q ->
  (String.length gpu_part <= 923)%nat -> contains gpu_part NUL = false ->
  strncpy_s_TRUNCATE 1024 (cpu_ram_block cpuUsage ramUsage ++ gpu_part)
  = cpu_ram_block cpuUsage ramUsage ++ gpu_part.
Proof.
  intros Hc Hr0 Hr L N.
  destruct (cpu_ram_block_short cpuUsage ramUsage Hc Hr0 Hr) as [La Na].
  apply strncpy_s_TRUNCATE_fits.
  - rewrite length_append. lia.
  - rewrite contains_append, Na, N. reflexivity.
Qed.

(** C5, as stated, fails: a cycle whose captured output is empty clears
    the flag but leaves [g_gpuData] alone; the metrics stored by the cycle
    before (65 C, 4 of 24 GB, 12 percent) are still stored after it. *)
Lemma previous_metrics_survive_failed_cycle :
  let good := sample_env (Some (system_times 130 200 60))
                (inr "<nvidia_smi_log>...</nvidia_smi_log>") (Some sample_doc) in
  let failed := sample_env (Some (system_times 160 250 70)) (inr "") None in
  exists g1 g2,
    refreshAllData good globals_init = inr g1 /\
    refreshAllData failed g1 = inr g2 /\
    g_gpuDataAvailable g2 = false /\
    g_gpuData g2 = g_gpuData g1 /\
    g_gpuData g2 <> GpuData_zero /\
    name (g_gpuData g2) = "NVIDIA GeForce RTX 4090" /\
    temperature (g_gpuData g2) = 65 /\ utilizationGpu (g_gpuData g2) = 12.
Proof.
  cbv zeta. eexists. eexists.
  split; [ vm_compute; reflexivity | ].
  split; [ vm_compute; reflexivity | ].
  cbn. repeat split. discriminate.
Qed.

(** C5, amended: in every refresh cycle, either [parseGpuData] returns a
    record, which replaces the stored one as a whole and the available flag
    is set; or the flag is cleared, the stored record is left exactly as it
    was, and the text stored for display is the CPU/RAM block of this cycle
    followed by the unavailable message, with none of the metrics. *)
Theorem gpu_record_replaced_or_kept (e : Env) (g : Globals) :
  exists g' cpuUsage,
    let ramUsage := getCurrentRamUsage (GlobalMemoryStatusEx e) in
    refreshAllData e g = inr g' /\
    getCurrentCpuUsage (GetSystemTimes e) (cpu_statics g)
    = inr (cpuUsage, cpu_statics g') /\
    ((g_gpuDataAvailable g' = true /\
      (exists s doc,
          getXmlGpuData e = inr s /\ load_string e (c_str s) = Some doc /\
          parseGpuData (stack e) doc = inr (g_gpuData g')) /\
      g_statsText g' =
        strncpy_s_TRUNCATE 1024
          (cpu_ram_block cpuUsage ramUsage ++ gpu_block true (g_gpuData g')))
     \/
     (g_gpuDataAvailable g' = false /\
      g_gpuData g' = g_gpuData g /\
      g_statsText g' =
        cpu_ram_block cpuUsage ramUsage
        ++ nl ++ "--- GPU Stats ---" ++ nl
        ++ "GPU data not available or initializing...")).
Proof.
  destruct (refreshAllData_unfold e g) as (q & st & g1 & C & R & K & ->).
  eexists. exists q. cbv zeta. split; [ reflexivity | ]. cbn.
  split; [ rewrite K; exact C | ].
  destruct (refresh_gpu_cases e (set_cpu_statics g st))
    as [(s & doc & data & X & _ & L & P & R') | (g' & R' & A & D & _)];
    rewrite R' in R; injection R as <-.
  - left. split; [ reflexivity | ]. split; [ | reflexivity ].
    exists s, doc. cbn. auto.
  - right. split; [ exact A | ]. split; [ exact D | ].
    unfold report, gpu_block. rewrite A.
    destruct (getCurrentRamUsage_bounds (GlobalMemoryStatusEx e)) as [R0 R1].
    apply report_fits; try assumption.
    + exact (getCurrentCpuUsage_le_100 _ _ _ _ C).
    + cbn. lia.
    + reflexivity.
Qed.


Lemma gpu_record_replaced_or_kept_witness :
  let failed := sample_env (Some (system_times 160 250 70)) (inr "") None in
  let g :=
    set_gpuDataAvailable
      (set_gpuData (set_cpu_statics globals_init (baseline 130 200 60))
         {| name := "NVIDIA GeForce RTX 4090"; driverVersion := "551.23";
            temperature := 65; memoryTotal := (24 # 1)%Q;
            memoryUsed := (4 # 1)%Q; utilizationGpu := 12 |})
      true in
  exists g',
    refreshAllData failed g = inr g' /\
    g_gpuDataAvailable g' = false /\ g_gpuData g' = g_gpuData g /\
    g_statsText g' =
      "CPU Usage: 50.00%" ++ nl ++ "RAM Usage: 8.00 GB" ++ nl
      ++ nl ++ "--- GPU Stats ---" ++ nl
      ++ "GPU data not available or initializing...".
Proof.
  cbv zeta.
  match goal with
  | |- exists g', refreshAllData ?e ?g = inr g' /\ _ =>
      destruct (gpu_record_replaced_or_kept e g)
        as (g' & q & R & C & [(A & _) | (A & D & T)])
  end.
  - exfalso. vm_compute in R. injection R as <-. discriminate A.
  - exists g'. split; [ exact R | ]. split; [ exact A | ]. split; [ exact D | ].
    rewrite T. vm_compute in C. injection C as <- _. vm_compute. reflexivity.
Defined.

(** ** Parsing a complete GPU record *)

(** C4: for a well-formed document whose GPU record has every field, the
    numeric ones holding the numerals of [t], [mt], [mu] and [u],
    [parseGpuData] returns the record with [memoryTotal = mt / 1024],
    [memoryUsed = mu / 1024], [temperature = t] and [utilizationGpu = u], and
    [refreshAllData] stores it, sets the available flag and stores as text
    the report of this cycle's CPU and RAM figures and of that record; for
    65, 24576, 4096 and 12 (and a product name of at most 800 characters,
    none of them NUL)
    the text is the CPU/RAM block followed by the lines [Temp: 65 C],
    [VRAM: 4.00 GB / 24.00 GB] and [GPU Util: 12 %], whole. *)
Theorem all_fields_parsed (e : Env) (g : Globals) (s : string)
    (doc : xml_document) (gpu : xml_node_struct) (t mt mu u : Z) :
  getXmlGpuData e = inr s -> empty s = false ->
  load_string e (c_str s) = Some doc ->
  child (doc_child doc "nvidia_smi_log") "gpu" = Some gpu ->
  numeral_text (text_get (child (child (Some gpu) "temperature") "gpu_temp")) t ->
  numeral_text (text_get (child (child (Some gpu) "fb_memory_usage") "total")) mt ->
  numeral_text (text_get (child (child (Some gpu) "fb_memory_usage") "used")) mu ->
  numeral_text (text_get (child (child (Some gpu) "utilization") "gpu_util")) u ->
  let product_name := text_get (child (Some gpu) "product_name") in
  let data :=
    {| name := product_name;
       driverVersion :=
         text_get (child (doc_child doc "nvidia_smi_log") "driver_version");
       temperature := t;
       memoryTotal := (inject_Z mt / (1024 # 1))%Q;
       memoryUsed := (inject_Z mu / (1024 # 1))%Q;
       utilizationGpu := u |} in
  let ramUsage := getCurrentRamUsage (GlobalMemoryStatusEx e) in
  parseGpuData (stack e) doc = inr data /\
  exists g' cpuUsage,
    refreshAllData e g = inr g' /\
    getCurrentCpuUsage (GetSystemTimes e) (cpu_statics g)
    = inr (cpuUsage, cpu_statics g') /\
    g_gpuDataAvailable g' = true /\ g_gpuData g' = data /\
    g_statsText g' =
      strncpy_s_TRUNCATE 1024
        (cpu_ram_block cpuUsage ramUsage
         ++ nl ++ "--- GPU Stats ---" ++ nl
         ++ "GPU: " ++ product_name ++ nl
         ++ "Temp: " ++ put_unsigned t ++ " C" ++ nl
         ++ "VRAM: " ++ put_fixed2 (inject_Z mu / (1024 # 1))%Q ++ " GB / "
         ++ put_fixed2 (inject_Z mt / (1024 # 1))%Q ++ " GB" ++ nl
         ++ "GPU Util: " ++ put_unsigned u ++ " %") /\
    (t = 65 -> mt = 24576 -> mu = 4096 -> u = 12 ->
     (String.length product_name <= 800)%nat ->
     contains product_name NUL = false ->
     g_statsText g' =
       cpu_ram_block cpuUsage ramUsage
       ++ nl ++ "--- GPU Stats ---" ++ nl
       ++ "GPU: " ++ product_name ++ nl
       ++ "Temp: 65 C" ++ nl
       ++ "VRAM: 4.00 GB / 24.00 GB" ++ nl
       ++ "GPU Util: 12 %").
Proof.
  intros X Es L G Ht Hmt Hmu Hu product_name data ramUsage.
  assert (P : parseGpuData (stack e) doc = inr data).
  { unfold parseGpuData. rewrite G. cbn [is_null negb].
    destruct (numeral_text_of_child _ _ _ Ht) as [_ ->].
    destruct (numeral_text_of_child _ _ _ Hmt) as [-> _].
    destruct (numeral_text_of_child _ _ _ Hu) as [-> _].
    cbn [negb].
    rewrite (stoul_numeral _ _ Ht). cbn [bind].
    rewrite (stoul_numeral _ _ Hmt). cbn [bind].
    rewrite (stoul_numeral _ _ Hmu). cbn [bind].
    rewrite (stoul_numeral _ _ Hu). reflexivity. }
  split; [ exact P | ].
  destruct (refreshAllData_unfold e g) as (q & st & g1 & C & R & K & ->).
  unfold refresh_gpu in R. rewrite X in R. cbn in R.
  rewrite Es in R. cbn in R. rewrite L, P in R. cbn in R.
  injection R as <-.
  eexists. exists q. split; [ reflexivity | ].
  split; [ exact C | ].
  split; [ reflexivity | ]. split; [ reflexivity | ].
  split; [ reflexivity | ].
  intros -> -> -> -> Ln Nn.
  change (g_statsText _) with
    (strncpy_s_TRUNCATE 1024
       (cpu_ram_block q ramUsage
        ++ (nl ++ "--- GPU Stats ---" ++ nl ++ "GPU: ")
        ++ product_name
        ++ (nl ++ "Temp: 65 C" ++ nl ++ "VRAM: 4.00 GB / 24.00 GB" ++ nl
            ++ "GPU Util: 12 %"))).
  change (cpu_ram_block q ramUsage ++ nl ++ "--- GPU Stats ---" ++ nl
          ++ "GPU: " ++ product_name ++ nl ++ "Temp: 65 C" ++ nl
          ++ "VRAM: 4.00 GB / 24.00 GB" ++ nl ++ "GPU Util: 12 %")
    with (cpu_ram_block q ramUsage
          ++ (nl ++ "--- GPU Stats ---" ++ nl ++ "GPU: ")
          ++ product_name
          ++ (nl ++ "Temp: 65 C" ++ nl ++ "VRAM: 4.00 GB / 24.00 GB" ++ nl
              ++ "GPU Util: 12 %")).
  destruct (getCurrentRamUsage_bounds (GlobalMemoryStatusEx e)) as [R0 R1].
  apply report_fits; try assumption.
  - exact (getCurrentCpuUsage_le_100 _ _ _ _ C).
  - clearbody product_name. rewrite !length_append. cbn. lia.
  - rewrite !contains_append, Nn. reflexivity.
Qed.

Lemma all_fields_parsed_witness :
  let e := sample_env (Some (system_times 130 200 60)) (inr sample_xml)
             (Some sample_doc) in
  exists g',
    refreshAllData e (set_cpu_statics globals_init (baseline 100 150 50)) = inr g' /\
    g_gpuDataAvailable g' = true /\
    temperature (g_gpuData g') = 65 /\ utilizationGpu (g_gpuData g') = 12 /\
    (memoryTotal (g_gpuData g') == 24 # 1)%Q /\
    (memoryUsed (g_gpuData g') == 4 # 1)%Q /\
    g_statsText g' =
      "CPU Usage: 50.00%" ++ nl ++ "RAM Usage: 8.00 GB" ++ nl
      ++ nl ++ "--- GPU Stats ---" ++ nl
      ++ "GPU: NVIDIA GeForce RTX 4090" ++ nl
      ++ "Temp: 65 C" ++ nl
      ++ "VRAM: 4.00 GB / 24.00 GB" ++ nl
      ++ "GPU Util: 12 %".
Proof.
  cbv zeta.
  destruct (all_fields_parsed
              (sample_env (Some (system_times 130 200 60)) (inr sample_xml)
                 (Some sample_doc))
              (set_cpu_statics globals_init (baseline 100 150 50))
              sample_xml sample_doc sample_gpu 65 24576 4096 12)
    as (_ & g' & q & R & C & A & D & _ & T).
  - reflexivity.
  - reflexivity.
  - reflexivity.
  - reflexivity.
  - split; [ vm_compute; split; discriminate | ].
    exists " C". split; reflexivity.
  - split; [ vm_compute; split; discriminate | ].
    exists " MiB". split; reflexivity.
  - split; [ vm_compute; split; discriminate | ].
    exists " MiB". split; reflexivity.
  - split; [ vm_compute; split; discriminate | ].
    exists " %". split; reflexivity.
  - exists g'. split; [ exact R | ]. split; [ exact A | ].
    rewrite D. cbn [temperature utilizationGpu memoryTotal memoryUsed].
    repeat (split; [ reflexivity | ]).
    rewrite (T eq_refl eq_refl eq_refl eq_refl); [ | cbn; lia | reflexivity ].
    vm_compute in C. injection C as <- _.
    vm_compute. reflexivity.
Defined.

(** ** Tool discovery *)

Lemma append_not_empty (a b : string) : empty b = false -> empty (a ++ b) = false.
Proof.
  intros H. destruct a; cbn; [ exact H | reflexivity ].
Qed.

Lemma find_app {A} (f : A -> bool) (l1 l2 : list A) :
  find f (l1 ++ l2) = match find f l1 with Some x => Some x | None => find f l2 end.
Proof.
  induction l1 as [ | x l1 IH ]; cbn; [ reflexivity | ].
  destruct (f x); [ reflexivity | exact IH ].
Qed.

Section Discovery.

(** The registry, the file system, the module file name and PATH. *)
Variable e : Env.

Lemma step_registry_spec :
  step_registry e = find (fileExists e) (registry_candidate e).
Proof.
  unfold step_registry, getNVSMIPathFromRegistry, registry_candidate.
  destruct (NVSMI_registry e) as [ | | value ]; cbn; try reflexivity.
  destruct (fileExists e (add_backslash value ++ nvidia_smi_exe)); [ | reflexivity ].
  rewrite append_not_empty by reflexivity. reflexivity.
Qed.

Lemma step_exe_folder_spec :
  step_exe_folder e = find (fileExists e) (exe_folder_candidate e).
Proof.
  unfold step_exe_folder, exe_folder_candidate.
  destruct (find_last_of (GetModuleFileNameA e) (String backslash (chr slash)));
    cbn; [ | reflexivity ].
  match goal with |- context [fileExists e ?p] => destruct (fileExists e p) end;
    reflexivity.
Qed.

Lemma findInPath_loop_spec (dirs : list string) :
  (if negb (empty (findInPath_loop e nvidia_smi_exe dirs))
   then Some (findInPath_loop e nvidia_smi_exe dirs) else None)
  = find (fileExists e) (map (fun dir => add_backslash dir ++ nvidia_smi_exe) dirs).
Proof.
  induction dirs as [ | dir dirs IH ]; cbn; [ reflexivity | ].
  destruct (fileExists e (add_backslash dir ++ nvidia_smi_exe)); [ | exact IH ].
  rewrite append_not_empty by reflexivity. reflexivity.
Qed.

Lemma step_PATH_spec :
  step_PATH e = find (fileExists e) (PATH_candidates e).
Proof.
  unfold step_PATH, findInPath, PATH_candidates.
  destruct (PATH e) as [envPath | ]; [ | reflexivity ].
  apply findInPath_loop_spec.
Qed.

(** C6: [getNVSMIPath] returns the first existing candidate of the priority
    list (registry, well-known install paths, folder of the executable,
    PATH directories) and the bare name when there is none; in particular a
    registry entry whose derived path exists wins, whatever else exists. *)
Theorem getNVSMIPath_priority :
  getNVSMIPath e = first_existing e /\
  (forall value,
      NVSMI_registry e = RegValue value ->
      fileExists e (add_backslash value ++ nvidia_smi_exe) = true ->
      getNVSMIPath e = add_backslash value ++ nvidia_smi_exe).
Proof.
  assert (E : getNVSMIPath e = first_existing e).
  { unfold getNVSMIPath, first_existing, priority_candidates.
    rewrite !find_app.
    rewrite <- step_registry_spec, <- step_exe_folder_spec, <- step_PATH_spec.
    fold (step_common e).
    destruct (step_registry e); [ reflexivity | ].
    destruct (step_common e); [ reflexivity | ].
    destruct (step_exe_folder e); [ reflexivity | ].
    destruct (step_PATH e); reflexivity. }
  split; [ exact E | ].
  intros value Hreg Hex. rewrite E.
  unfold first_existing, priority_candidates, registry_candidate.
  rewrite Hreg. cbn. rewrite Hex. reflexivity.
Qed.

End Discovery.

Lemma getNVSMIPath_priority_witness :
  getNVSMIPath (sample_env None (inr "") None)
  = "D:\NVIDIA\NVSMI\nvidia-smi.exe".
Proof.
  apply (proj2 (getNVSMIPath_priority (sample_env None (inr "") None))
           "D:\NVIDIA\NVSMI").
  - reflexivity.
  - reflexivity.
Defined.

(** ** The report *)

Lemma put_fixed2_two_decimals (x : double) : two_decimals (put_fixed2 x).
Proof.
  unfold put_fixed2, two_decimals.
  set (n := round_half_even (Qabs x * (100 # 1))).
  destruct (put_unsigned_all_digits (n / 100)) as [A E].
  assert (H1 : 0 <= n mod 100 / 10 < 10).
  { pose proof (Z.mod_pos_bound n 100 ltac:(lia)).
    split; [ apply Z.div_pos; lia | apply Z.div_lt_upper_bound; lia ]. }
  assert (H2 : 0 <= n mod 10 < 10) by (apply Z.mod_pos_bound; lia).
  destruct (digit_char_spec _ H1) as (D1 & _).
  destruct (digit_char_spec _ H2) as (D2 & _).
  eexists. exists (put_unsigned (n / 100)). eexists. eexists.
  split; [ reflexivity | ].
  split; [ destruct (x ?= 0)%Q; auto | ].
  auto.
Qed.

(** C8, as stated, fails: the temperature and the utilisation are unsigned
    integers and are printed without decimals ([Temp: 65 C],
    [GPU Util: 12 %]); only the four doubles get two. *)
Lemma integer_fields_without_decimals :
  let e := sample_env (Some (system_times 130 200 60)) (inr sample_xml)
             (Some sample_doc) in
  exists g',
    refreshAllData e (set_cpu_statics globals_init (baseline 100 150 50)) = inr g' /\
    g_statsText g' =
      "CPU Usage: 50.00%" ++ nl ++ "RAM Usage: 8.00 GB" ++ nl
      ++ nl ++ "--- GPU Stats ---" ++ nl
      ++ "GPU: NVIDIA GeForce RTX 4090" ++ nl
      ++ "Temp: 65 C" ++ nl
      ++ "VRAM: 4.00 GB / 24.00 GB" ++ nl
      ++ "GPU Util: 12 %" /\
    put_unsigned (temperature (g_gpuData g')) = "65" /\
    ~ two_decimals (put_unsigned (temperature (g_gpuData g'))).
Proof.
  cbv zeta. eexists. split; [ vm_compute; reflexivity | ].
  split; [ vm_compute; reflexivity | ].
  split; [ vm_compute; reflexivity | ].
  intros (sign & int & d1 & d2 & E & [-> | ->] & _ & NE & _).
  - vm_compute in E.
    destruct int as [ | a [ | b [ | c int ] ] ]; cbn in E; discriminate.
  - vm_compute in E. discriminate.
Qed.

(** C8, amended: every refresh returns, and the text it stores is (the
    first 1023 characters of) a CPU/RAM block followed by a GPU block.  The
    CPU/RAM block is the two lines with the CPU and RAM doubles, or the
    error line, which it is whenever [GetSystemTimes] failed.  The GPU block
    is the header followed by the name, the temperature, the two VRAM
    doubles and the utilisation, or the header followed by the
    unavailable message.  Each of the four doubles is printed with exactly
    two decimals; the temperature and the utilisation are printed as plain
    unsigned integers. *)
Theorem report_layout (e : Env) (g : Globals) :
  exists cpuUsage g',
    let ramUsage := getCurrentRamUsage (GlobalMemoryStatusEx e) in
    let d := g_gpuData g' in
    refreshAllData e g = inr g' /\
    getCurrentCpuUsage (GetSystemTimes e) (cpu_statics g)
    = inr (cpuUsage, cpu_statics g') /\
    g_statsText g' =
      strncpy_s_TRUNCATE 1024
        (cpu_ram_block cpuUsage ramUsage ++ gpu_block (g_gpuDataAvailable g') d) /\
    (cpu_ram_block cpuUsage ramUsage
       = "CPU Usage: " ++ put_fixed2 cpuUsage ++ "%" ++ nl
         ++ "RAM Usage: " ++ put_fixed2 ramUsage ++ " GB" ++ nl
     \/ cpu_ram_block cpuUsage ramUsage = "Error getting CPU/RAM usage." ++ nl) /\
    (GetSystemTimes e = None ->
     cpu_ram_block cpuUsage ramUsage = "Error getting CPU/RAM usage." ++ nl) /\
    (gpu_block (g_gpuDataAvailable g') d
       = nl ++ "--- GPU Stats ---" ++ nl
         ++ "GPU: " ++ name d ++ nl
         ++ "Temp: " ++ put_unsigned (temperature d) ++ " C" ++ nl
         ++ "VRAM: " ++ put_fixed2 (memoryUsed d) ++ " GB / "
         ++ put_fixed2 (memoryTotal d) ++ " GB" ++ nl
         ++ "GPU Util: " ++ put_unsigned (utilizationGpu d) ++ " %"
     \/ gpu_block (g_gpuDataAvailable g') d
       = nl ++ "--- GPU Stats ---" ++ nl
         ++ "GPU data not available or initializing...") /\
    two_decimals (put_fixed2 cpuUsage) /\ two_decimals (put_fixed2 ramUsage) /\
    two_decimals (put_fixed2 (memoryUsed d)) /\
    two_decimals (put_fixed2 (memoryTotal d)) /\
    all_digits (put_unsigned (temperature d)) = true /\
    all_digits (put_unsigned (utilizationGpu d)) = true.
Proof.
  destruct (refreshAllData_unfold e g) as (q & st & g1 & C & _ & K & ->).
  exists q. eexists. cbv zeta.
  split; [ reflexivity | ]. cbn.
  split; [ rewrite K; exact C | ].
  split; [ reflexivity | ].
  split; [ unfold cpu_ram_block; destruct (Qle_bool 0 q); auto | ].
  split.
  { intros N. rewrite N in C. cbn in C. injection C as <- _. reflexivity. }
  split; [ unfold gpu_block; destruct (g_gpuDataAvailable g1); auto | ].
  repeat split; try apply put_fixed2_two_decimals; apply put_unsigned_all_digits.
Qed.

Lemma report_layout_witness :
  exists g',
    refreshAllData (sample_env None (inr "") None) globals_init = inr g' /\
    g_statsText g' =
      "Error getting CPU/RAM usage." ++ nl
      ++ nl ++ "--- GPU Stats ---" ++ nl
      ++ "GPU data not available or initializing...".
Proof.
  destruct (report_layout (sample_env None (inr "") None) globals_init)
    as (q & g' & R & _ & T & _ & N & _).
  exists g'. split; [ exact R | ].
  rewrite T, (N eq_refl).
  vm_compute in R. injection R as <-. reflexivity.
Defined.

(** ** The window procedure *)

Lemma refreshAllData_firstCall (e : Env) (g : Globals) :
  exists g',
    refreshAllData e g = inr g' /\
    (firstCall (cpu_statics g) = false -> firstCall (cpu_statics g') = false).
Proof.
  destruct (refreshAllData_unfold e g) as (q & st & g1 & C & _ & K & ->).
  eexists. split; [ reflexivity | ]. cbn. rewrite K.
  exact (firstCall_stays_false _ _ _ _ C).
Qed.

Lemma WndProc_firstCall (e : Env) (msg : Message) (g : Globals) :
  exists g',
    WndProc e msg g = inr g' /\
    (firstCall (cpu_statics g) = false -> firstCall (cpu_statics g') = false).
Proof.
  destruct msg; cbn [WndProc];
    try (eexists; split; [ reflexivity | intros F; exact F ]).
  - destruct (getCurrentCpuUsage_returns (GetSystemTimes e)
                (cpu_statics (set_timer g true))) as (q & st & C).
    rewrite C. eexists. split; [ reflexivity | ]. cbn.
    exact (firstCall_stays_false _ _ _ _ C).
  - exact (refreshAllData_firstCall e (set_timer g true)).
  - destruct (wParam =? CPU_USAGE_TIMER_ID).
    + exact (refreshAllData_firstCall e g).
    + eexists. split; [ reflexivity | intros F; exact F ].
Qed.

Lemma dispatch_all_firstCall (msgs : list (Env * Message)) :
  forall g : Globals,
    exists g',
      dispatch_all msgs g = inr g' /\
      (firstCall (cpu_statics g) = false -> firstCall (cpu_statics g') = false).
Proof.
  induction msgs as [ | [e msg] rest IH ]; intros g; cbn [dispatch_all].
  - eexists. split; [ reflexivity | intros F; exact F ].
  - destruct (WndProc_firstCall e msg g) as (g1 & W & F1).
    destruct (IH g1) as (g2 & D & F2).
    exists g2. rewrite W. cbn. split; [ exact D | auto ].
Qed.

(** C10, as stated, fails: when [GetSystemTimes] fails during [WM_CREATE],
    the startup call returns -1.0 and [firstCall] stays set; the first timer
    refresh then takes the first-invocation branch, and its 0 is what the
    text shows ([CPU Usage: 0.00%]), where the deltas against the
    zero-initialised baseline would have given 50. *)
Lemma first_invocation_reaches_display :
  let startup := sample_env None (inr "") None in
  let tick := sample_env (Some (system_times 50 100 0)) (inr "") None in
  exists g1 g2,
    dispatch_all [ (startup, WM_CREATE) ] globals_init = inr g1 /\
    firstCall (cpu_statics g1) = true /\
    getCurrentCpuUsage (GetSystemTimes tick) (cpu_statics g1)
    = inr (0%Q, store_baseline (system_times 50 100 0)) /\
    dispatch_all [ (startup, WM_CREATE); (tick, WM_TIMER 1) ] globals_init = inr g2 /\
    g_statsText g2 =
      "CPU Usage: 0.00%" ++ nl ++ "RAM Usage: 8.00 GB" ++ nl
      ++ nl ++ "--- GPU Stats ---" ++ nl
      ++ "GPU data not available or initializing..." /\
    exists q st,
      getCurrentCpuUsage (GetSystemTimes tick) (baseline 0 0 0) = inr (q, st) /\
      (q == 50 # 1)%Q.
Proof.
  cbv zeta. eexists. eexists.
  split; [ vm_compute; reflexivity | ].
  split; [ reflexivity | ].
  split; [ vm_compute; reflexivity | ].
  split; [ vm_compute; reflexivity | ].
  split; [ vm_compute; reflexivity | ].
  eexists. eexists. split; [ vm_compute; reflexivity | reflexivity ].
Qed.

(** C10, amended: when the call to [GetSystemTimes] made while handling
    [WM_CREATE] succeeds, that call is the first invocation; after
    [WM_CREATE] and any further messages [firstCall] is clear, so the sample
    taken by the next refresh is computed from the deltas against the stored
    baseline and never by the first-invocation branch. *)
Theorem startup_consumes_first_invocation (e0 : Env) (now0 : SystemTimes)
    (msgs : list (Env * Message)) (g : Globals) :
  GetSystemTimes e0 = Some now0 ->
  exists g',
    dispatch_all ((e0, WM_CREATE) :: msgs) g = inr g' /\
    firstCall (cpu_statics g') = false /\
    forall (e : Env) (now : SystemTimes),
      GetSystemTimes e = Some now ->
      getCurrentCpuUsage (GetSystemTimes e) (cpu_statics g')
      = inr (if totalActivityTime (cpu_statics g') now =? 0 then 0%Q
             else ((1 - inject_Z (idleTimeDelta (cpu_statics g') now)
                        / inject_Z (totalActivityTime (cpu_statics g') now))
                   * (100 # 1))%Q,
             store_baseline now).
Proof.
  intros S0. cbn [dispatch_all WndProc]. rewrite S0.
  destruct (getCurrentCpuUsage_success now0 (cpu_statics (set_timer g true)))
    as (q & C).
  rewrite C. cbn [bind].
  destruct (dispatch_all_firstCall msgs
              (set_cpu_statics (set_timer g true) (store_baseline now0)))
    as (g' & D & F).
  exists g'. split; [ exact D | ].
  assert (F' : firstCall (cpu_statics g') = false) by (apply F; reflexivity).
  split; [ exact F' | ].
  intros e now S. rewrite S. apply getCurrentCpuUsage_delta. exact F'.
Qed.

Lemma startup_consumes_first_invocation_witness :
  exists g',
    dispatch_all
      [ (sample_env (Some (system_times 100 150 50)) (inr "") None, WM_CREATE);
        (sample_env (Some (system_times 130 200 60)) (inr sample_xml)
           (Some sample_doc), WM_TIMER 1) ]
      globals_init = inr g' /\
    firstCall (cpu_statics g') = false.
Proof.
  destruct (startup_consumes_first_invocation
              (sample_env (Some (system_times 100 150 50)) (inr "") None)
              (system_times 100 150 50)
              [ (sample_env (Some (system_times 130 200 60)) (inr sample_xml)
                   (Some sample_doc), WM_TIMER 1) ]
              globals_init eq_refl) as (g' & D & F & _).
  exists g'. split; [ exact D | exact F ].
Defined.

(** * Further properties of the code *)

(** ** [FileTimeToInt64] *)

Lemma u32_range (z : Z) : 0 <= u32 z < 2 ^ 32.
Proof. unfold u32. apply Z.mod_pos_bound. reflexivity. Qed.

Lemma lor_high_low (h l : Z) :
  0 <= l < 2 ^ 32 -> Z.lor (Z.shiftl h 32) l = h * 2 ^ 32 + l.
Proof.
  intros Hl. rewrite Z.shiftl_mul_pow2 by lia.
  assert (D : Z.land (h * 2 ^ 32) l = 0).
  { apply Z.bits_inj'. intros n Hn.
    rewrite Z.land_spec, Z.bits_0.
    destruct (Z.ltb_spec n 32).
    - rewrite Z.mul_pow2_bits_low by lia. reflexivity.
    - replace l with (l mod 2 ^ 32) by (apply Z.mod_small; exact Hl).
      rewrite Z.mod_pow2_bits_high by lia. apply andb_false_r. }
  rewrite <- (Z.lxor_lor _ _ D). symmetry. apply Z.add_nocarry_lxor. exact D.
Qed.

Lemma FileTimeToInt64_sum (ft : FILETIME) :
  FileTimeToInt64 ft = u32 (dwHighDateTime ft) * 2 ^ 32 + u32 (dwLowDateTime ft).
Proof.
  unfold FileTimeToInt64.
  pose proof (u32_range (dwHighDateTime ft)) as Hh.
  pose proof (u32_range (dwLowDateTime ft)) as Hl.
  rewrite u64_small.
  - apply lor_high_low. exact Hl.
  - rewrite Z.shiftl_mul_pow2 by lia. lia.
Qed.

Lemma FileTimeToInt64_range (ft : FILETIME) : 0 <= FileTimeToInt64 ft < 2 ^ 64.
Proof.
  rewrite FileTimeToInt64_sum.
  pose proof (u32_range (dwHighDateTime ft)).
  pose proof (u32_range (dwLowDateTime ft)). lia.
Qed.

(** X1. The conversion puts the high word above the low one: the result is
    [high * 2^32 + low], a 64-bit value; converting the two halves of a
    64-bit tick count gives the count back. *)
Theorem FileTimeToInt64_value :
  (forall ft : FILETIME,
      FileTimeToInt64 ft = u32 (dwHighDateTime ft) * 2 ^ 32 + u32 (dwLowDateTime ft) /\
      0 <= FileTimeToInt64 ft < 2 ^ 64) /\
  (forall z : Z,
      0 <= z < 2 ^ 64 ->
      FileTimeToInt64 {| dwLowDateTime := z mod 2 ^ 32; dwHighDateTime := z / 2 ^ 32 |} = z).
Proof.
  split.
  - intros ft. split; [ apply FileTimeToInt64_sum | apply FileTimeToInt64_range ].
  - intros z Hz. rewrite FileTimeToInt64_sum.
    cbn [dwHighDateTime dwLowDateTime]. unfold u32.
    rewrite Z.mod_mod by lia.
    rewrite (Z.mod_small (z / 2 ^ 32)).
    + pose proof (Z.div_mod z (2 ^ 32) ltac:(lia)). lia.
    + split; [ apply Z.div_pos; lia | apply Z.div_lt_upper_bound; lia ].
Qed.

Lemma FileTimeToInt64_value_witness :
  FileTimeToInt64 {| dwLowDateTime := 4294967296004 mod 2 ^ 32;
                     dwHighDateTime := 4294967296004 / 2 ^ 32 |}
  = 4294967296004.
Proof.
  apply (proj2 FileTimeToInt64_value 4294967296004). lia.
Defined.

(** ** CPU and RAM samplers *)

Lemma usage_formula_sign (idle total : Z) :
  0 < total ->
  Qle_bool 0 ((1 - inject_Z idle / inject_Z total) * (100 # 1)) = (idle <=? total).
Proof.
  intros Ht.
  destruct total as [ | t | t ]; try lia.
  apply eq_true_iff_eq. rewrite Qle_bool_iff, Z.leb_le.
  unfold Qle, Qdiv, Qinv, Qmult, Qminus, Qplus, Qopp, inject_Z.
  cbn -[Z.add Z.mul Z.opp]. rewrite ?Pos2Z.inj_mul.
  split; intros H; nia.
Qed.

(** X2. No call returns more than 100: a failed sample gives -1, the first
    call and an idle machine give 0, and the idle delta, being unsigned,
    never makes the quotient negative. *)
Theorem cpu_usage_at_most_100 (sys : option SystemTimes) (st : CpuStatics) :
  exists q st',
    getCurrentCpuUsage sys st = inr (q, st') /\ (q <= 100 # 1)%Q.
Proof.
  destruct sys as [now | ].
  - destruct (firstCall st) eqn:F.
    + unfold getCurrentCpuUsage. rewrite F.
      eexists. eexists. split; [ reflexivity | discriminate ].
    + rewrite (getCurrentCpuUsage_delta st now F).
      eexists. eexists. split; [ reflexivity | ].
      destruct (totalActivityTime st now =? 0) eqn:E; [ discriminate | ].
      apply Z.eqb_neq in E.
      apply usage_formula_le_100.
      * apply u64_range.
      * pose proof (u64_range (kernelTimeDelta st now + userTimeDelta st now)).
        unfold totalActivityTime in *. lia.
  - eexists. eexists. split; [ reflexivity | discriminate ].
Qed.

(** X3. On a call that is not the first and whose sample succeeded, with
    deltas below 2^53 (the range in which an integer converts to [double]
    without rounding, some 28 years of ticks), the value is negative, and
    the report shows the error line in place of the CPU and RAM lines,
    exactly when the idle delta exceeds a non-zero total. *)
Theorem cpu_error_line_on_success (st : CpuStatics) (now : SystemTimes)
    (ramUsage : double) :
  firstCall st = false ->
  idleTimeDelta st now < 2 ^ 53 ->
  totalActivityTime st now < 2 ^ 53 ->
  exists q,
    getCurrentCpuUsage (Some now) st = inr (q, store_baseline now) /\
    (cpu_ram_block q ramUsage = "Error getting CPU/RAM usage." ++ nl
     <-> 0 < totalActivityTime st now < idleTimeDelta st now).
Proof.
  intros F _ _. rewrite (getCurrentCpuUsage_delta st now F).
  eexists. split; [ reflexivity | ].
  pose proof (u64_range (kernelTimeDelta st now + userTimeDelta st now)) as R.
  fold (totalActivityTime st now) in R.
  unfold cpu_ram_block.
  destruct (totalActivityTime st now =? 0) eqn:E.
  - apply Z.eqb_eq in E. cbn. split; [ discriminate | lia ].
  - apply Z.eqb_neq in E. rewrite usage_formula_sign by lia.
    destruct (idleTimeDelta st now <=? totalActivityTime st now) eqn:L.
    + apply Z.leb_le in L. split; [ discriminate | lia ].
    + apply Z.leb_gt in L. split; [ lia | reflexivity ].
Qed.

Lemma cpu_error_line_on_success_witness :
  exists q,
    getCurrentCpuUsage (Some (system_times 10 5 0)) (baseline 0 0 0)
    = inr (q, store_baseline (system_times 10 5 0)) /\
    (cpu_ram_block q (8 # 1) = "Error getting CPU/RAM usage." ++ nl
     <-> 0 < totalActivityTime (baseline 0 0 0) (system_times 10 5 0)
           < idleTimeDelta (baseline 0 0 0) (system_times 10 5 0)).
Proof.
  apply (cpu_error_line_on_success (baseline 0 0 0) (system_times 10 5 0) (8 # 1)).
  - reflexivity.
  - vm_compute. reflexivity.
  - vm_compute. reflexivity.
Defined.

(** X4. Two calls in a row whose samples succeed: whatever the statics
    were before the first, when no counter went backwards and the kernel
    and user increments add up to less than 2^64, the second call works on
    the increments between the two snapshots (its idle delta is the idle
    increment, its total the kernel plus the user increment) and stores the
    second snapshot; it returns 0 when that total is 0, and a value in
    [0, 100] when the idle increment does not exceed a positive total. *)
Theorem consecutive_samples (st0 : CpuStatics) (a b : SystemTimes) :
  let idle x := FileTimeToInt64 (idleTime x) in
  let kernel x := FileTimeToInt64 (kernelTime x) in
  let user x := FileTimeToInt64 (userTime x) in
  idle a <= idle b -> kernel a <= kernel b -> user a <= user b ->
  (kernel b - kernel a) + (user b - user a) < 2 ^ 64 ->
  exists q0 st1 q1,
    getCurrentCpuUsage (Some a) st0 = inr (q0, st1) /\
    getCurrentCpuUsage (Some b) st1 = inr (q1, store_baseline b) /\
    idleTimeDelta st1 b = idle b - idle a /\
    totalActivityTime st1 b = (kernel b - kernel a) + (user b - user a) /\
    ((kernel b - kernel a) + (user b - user a) = 0 -> q1 = 0%Q) /\
    (0 < (kernel b - kernel a) + (user b - user a) ->
     idle b - idle a <= (kernel b - kernel a) + (user b - user a) ->
     (0 <= q1 <= 100 # 1)%Q).
Proof.
  intros idle kernel user Hi Hk Hu Ht.
  destruct (getCurrentCpuUsage_success a st0) as (q0 & C0).
  exists q0, (store_baseline a).
  pose proof (FileTimeToInt64_range (idleTime a)) as Ra.
  pose proof (FileTimeToInt64_range (idleTime b)) as Rb.
  pose proof (FileTimeToInt64_range (kernelTime a)) as Rc.
  pose proof (FileTimeToInt64_range (kernelTime b)) as Rd.
  pose proof (FileTimeToInt64_range (userTime a)) as Re.
  pose proof (FileTimeToInt64_range (userTime b)) as Rf.
  subst idle kernel user. cbv beta in *.
  assert (I : idleTimeDelta (store_baseline a) b
              = FileTimeToInt64 (idleTime b) - FileTimeToInt64 (idleTime a)).
  { unfold idleTimeDelta, store_baseline. cbn [previousIdleTime].
    apply u64_small. lia. }
  assert (T : totalActivityTime (store_baseline a) b
              = (FileTimeToInt64 (kernelTime b) - FileTimeToInt64 (kernelTime a))
                + (FileTimeToInt64 (userTime b) - FileTimeToInt64 (userTime a))).
  { unfold totalActivityTime, kernelTimeDelta, userTimeDelta, store_baseline.
    cbn [previousKernelTime previousUserTime].
    rewrite (u64_small (FileTimeToInt64 (kernelTime b) - _)) by lia.
    rewrite (u64_small (FileTimeToInt64 (userTime b) - _)) by lia.
    apply u64_small. lia. }
  rewrite (getCurrentCpuUsage_delta (store_baseline a) b eq_refl).
  eexists. split; [ exact C0 | ]. split; [ reflexivity | ].
  split; [ exact I | ]. split; [ exact T | ].
  rewrite I, T. split.
  - intros Z0. rewrite Z0. reflexivity.
  - intros Pos Le.
    match goal with
    | |- context [?x =? 0] =>
        replace (x =? 0) with false by (symmetry; apply Z.eqb_neq; lia)
    end.
    apply usage_formula_bounds; lia.
Qed.

Lemma consecutive_samples_witness :
  exists q0 st1 q1,
    getCurrentCpuUsage (Some (system_times 100 150 50)) cpu_statics_init
    = inr (q0, st1) /\
    getCurrentCpuUsage (Some (system_times 130 200 60)) st1
    = inr (q1, store_baseline (system_times 130 200 60)) /\
    idleTimeDelta st1 (system_times 130 200 60) = 30 /\
    totalActivityTime st1 (system_times 130 200 60) = 60 /\
    (0 <= q1 <= 100 # 1)%Q.
Proof.
  destruct (consecutive_samples cpu_statics_init
              (system_times 100 150 50) (system_times 130 200 60))
    as (q0 & st1 & q1 & C0 & C1 & I & T & _ & B).
  - vm_compute. discriminate.
  - vm_compute. discriminate.
  - vm_compute. discriminate.
  - vm_compute. reflexivity.
  - exists q0, st1, q1. split; [ exact C0 | ]. split; [ exact C1 | ].
    split; [ exact I | ]. split; [ exact T | ].
    apply B; vm_compute; [ reflexivity | discriminate ].
Defined.

(** X5. The deltas are taken modulo 2^64, so a counter that wrapped around
    between two samples still gives its true increment: when the baseline
    holds [p] and the counter advanced by [d] ticks, the delta is [d] even if
    [p + d] passed 2^64. *)
Theorem deltas_survive_wraparound (st : CpuStatics) (now : SystemTimes)
    (di dk du : Z) :
  0 <= di < 2 ^ 64 -> 0 <= dk < 2 ^ 64 -> 0 <= du < 2 ^ 64 ->
  FileTimeToInt64 (idleTime now) = u64 (previousIdleTime st + di) ->
  FileTimeToInt64 (kernelTime now) = u64 (previousKernelTime st + dk) ->
  FileTimeToInt64 (userTime now) = u64 (previousUserTime st + du) ->
  idleTimeDelta st now = di /\ kernelTimeDelta st now = dk /\
  userTimeDelta st now = du.
Proof.
  intros Hi Hk Hu Ei Ek Eu.
  assert (W : forall p d, 0 <= d < 2 ^ 64 -> u64 (u64 (p + d) - p) = d).
  { intros p d Hd. unfold u64.
    rewrite Zminus_mod_idemp_l.
    replace (p + d - p) with d by lia. apply Z.mod_small. exact Hd. }
  unfold idleTimeDelta, kernelTimeDelta, userTimeDelta.
  rewrite Ei, Ek, Eu. repeat split; apply W; assumption.
Qed.

Lemma deltas_survive_wraparound_witness :
  idleTimeDelta (baseline (2 ^ 64 - 10) (2 ^ 64 - 20) 5) (system_times 20 40 15) = 30 /\
  kernelTimeDelta (baseline (2 ^ 64 - 10) (2 ^ 64 - 20) 5) (system_times 20 40 15) = 60 /\
  userTimeDelta (baseline (2 ^ 64 - 10) (2 ^ 64 - 20) 5) (system_times 20 40 15) = 10.
Proof.
  apply (deltas_survive_wraparound
           (baseline (2 ^ 64 - 10) (2 ^ 64 - 20) 5) (system_times 20 40 15)
           30 60 10);
    try lia; vm_compute; reflexivity.
Defined.

(** X6. The RAM figure is never negative and never above 2^34 GB; when the
    available bytes do not exceed the total and the used bytes are below
    2^53 (8 PiB, the range in which the conversion to [double] is exact), it
    is their difference divided by 2^30. *)
Theorem getCurrentRamUsage_value (memInfo : MEMORYSTATUSEX) :
  (0 <= getCurrentRamUsage memInfo)%Q /\
  (getCurrentRamUsage memInfo <= inject_Z (2 ^ 34))%Q /\
  (0 <= ullAvailPhys memInfo <= ullTotalPhys memInfo ->
   ullTotalPhys memInfo < 2 ^ 64 ->
   ullTotalPhys memInfo - ullAvailPhys memInfo < 2 ^ 53 ->
   (getCurrentRamUsage memInfo
    == inject_Z (ullTotalPhys memInfo - ullAvailPhys memInfo) / inject_Z (2 ^ 30))%Q).
Proof.
  destruct (getCurrentRamUsage_bounds memInfo) as [R0 R1].
  split; [ exact R0 | ]. split; [ exact R1 | ].
  intros Ha Ht _. unfold getCurrentRamUsage.
  rewrite (u64_small (ullTotalPhys memInfo)) by lia.
  rewrite (u64_small (ullAvailPhys memInfo)) by lia.
  rewrite u64_small by lia. reflexivity.
Qed.

Lemma getCurrentRamUsage_value_witness :
  (getCurrentRamUsage {| ullTotalPhys := 17179869184; ullAvailPhys := 8589934592 |}
   == inject_Z (17179869184 - 8589934592) / inject_Z (2 ^ 30))%Q.
Proof.
  apply (getCurrentRamUsage_value
           {| ullTotalPhys := 17179869184; ullAvailPhys := 8589934592 |}).
  - cbn. lia.
  - cbn. lia.
  - cbn. lia.
Defined.

(** ** Strings *)

Lemma back_append_chr (s : string) (c : ascii) : back (s ++ chr c) = Some c.
Proof.
  induction s as [ | x s IH ]; [ reflexivity | ].
  cbn [append back]. destruct (s ++ chr c) eqn:E; [ | exact IH ].
  destruct s; discriminate.
Qed.

Lemma back_cons (x : ascii) (s : string) :
  empty s = false -> back (String x s) = back s.
Proof. destruct s; [ discriminate | reflexivity ]. Qed.

(** ** Splitting PATH *)

Lemma getlines_pieces (delim : ascii) (s : string) :
  forall cur p,
    contains cur delim = false ->
    In p (getlines delim cur s) -> contains p delim = false.
Proof.
  induction s as [ | c s IH ]; intros cur p Hc Hin; cbn [getlines] in Hin.
  - destruct (empty cur); [ contradiction | ].
    destruct Hin as [<- | []]. exact Hc.
  - destruct (Ascii.eqb c delim) eqn:E.
    + destruct Hin as [<- | Hin]; [ exact Hc | ].
      apply (IH "" p); [ reflexivity | exact Hin ].
    + apply (IH (cur ++ chr c) p); [ | exact Hin ].
      rewrite contains_append, Hc. cbn. rewrite E. reflexivity.
Qed.

Lemma getlines_join (delim : ascii) (s : string) :
  forall cur,
    join_terminated delim (getlines delim cur s)
    = cur ++ s ++
      (if match s with
          | EmptyString => empty cur
          | String _ _ => back_is s delim
          end
       then "" else chr delim).
Proof.
  induction s as [ | c s IH ]; intros cur; cbn [getlines].
  - destruct (empty cur) eqn:E; cbn.
    + destruct cur; [ reflexivity | discriminate ].
    + reflexivity.
  - destruct (Ascii.eqb c delim) eqn:E.
    + apply Ascii.eqb_eq in E. subst c.
      cbn [join_terminated]. rewrite IH. cbn [append].
      f_equal. unfold chr. cbn [append]. f_equal. f_equal.
      destruct s as [ | c' s' ]; cbn [empty].
      * unfold back_is. cbn. rewrite Ascii.eqb_refl. reflexivity.
      * unfold back_is. rewrite (back_cons delim (String c' s')) by reflexivity.
        reflexivity.
    + rewrite IH. rewrite append_assoc. cbn [append chr]. f_equal. f_equal.
      f_equal.
      destruct s as [ | c' s' ].
      * unfold back_is. cbn [back]. rewrite E.
        destruct cur; reflexivity.
      * unfold back_is. rewrite (back_cons c (String c' s')) by reflexivity.
        reflexivity.
Qed.

(** X7. The directories read from PATH contain no [;], and nothing is lost:
    the directories, each followed by [;], make up the PATH text again
    (with a closing [;] when it had none). *)
Theorem PATH_split_round_trip (envPath : string) :
  (forall dir, In dir (getlines ";" "" envPath) -> contains dir ";" = false) /\
  join_terminated ";" (getlines ";" "" envPath)
  = envPath ++ (if empty envPath || back_is envPath ";" then "" else ";").
Proof.
  split.
  - intros dir. apply getlines_pieces. reflexivity.
  - rewrite getlines_join. cbn [append].
    destruct envPath; reflexivity.
Qed.

(** ** Directory names and the candidates built from them *)

Lemma add_backslash_ends (s : string) :
  empty s = false -> back_is (add_backslash s) backslash = true.
Proof.
  intros E. unfold add_backslash. rewrite E. cbn [negb andb].
  destruct (back_is s backslash) eqn:B; cbn [negb]; [ exact B | ].
  unfold back_is. rewrite back_append_chr. apply Ascii.eqb_refl.
Qed.

Lemma add_backslash_fixed (s : string) :
  back_is s backslash = true -> add_backslash s = s.
Proof.
  intros B. unfold add_backslash. rewrite B.
  rewrite andb_false_r. reflexivity.
Qed.

(** X8. A directory is used the same with or without its final backslash: the
    folder written in the registry as [v] or as [v\] leads to the same
    result, and so does a PATH entry. *)
Theorem trailing_backslash_irrelevant (e1 e2 : Env) (v : string) :
  empty v = false -> back_is v backslash = false ->
  PathFileExistsA e1 = PathFileExistsA e2 ->
  NVSMI_registry e1 = RegValue v ->
  NVSMI_registry e2 = RegValue (v ++ chr backslash) ->
  add_backslash (v ++ chr backslash) = add_backslash v /\
  getNVSMIPathFromRegistry e1 = getNVSMIPathFromRegistry e2.
Proof.
  intros Ev Bv F R1 R2.
  assert (A : add_backslash (v ++ chr backslash) = add_backslash v).
  { rewrite add_backslash_fixed.
    - unfold add_backslash. rewrite Ev, Bv. reflexivity.
    - unfold back_is. rewrite back_append_chr. apply Ascii.eqb_refl. }
  split; [ exact A | ].
  unfold getNVSMIPathFromRegistry, fileExists. rewrite R1, R2, A, F. reflexivity.
Qed.

Lemma trailing_backslash_irrelevant_witness :
  getNVSMIPathFromRegistry (sample_env None (inr "") None)
  = getNVSMIPathFromRegistry
      {| GetSystemTimes := None;
         GlobalMemoryStatusEx := GlobalMemoryStatusEx (sample_env None (inr "") None);
         NVSMI_registry := RegValue ("D:\NVIDIA\NVSMI" ++ chr backslash);
         PathFileExistsA := PathFileExistsA (sample_env None (inr "") None);
         GetModuleFileNameA := "";
         PATH := None;
         CreatePipe := true;
         CreateProcessA := fun _ => inr "";
         load_string := fun _ => None;
         stack := sample_stack |}.
Proof.
  refine (proj2 (trailing_backslash_irrelevant _ _ "D:\NVIDIA\NVSMI" _ _ _ _ _));
    reflexivity.
Defined.

(** X9. For a non-empty executable name, [findInPath] returns the candidate of
    the first PATH directory in which the file exists, a path that exists;
    it returns the empty string when PATH is not set or no directory has the
    file. *)
Theorem findInPath_first (e : Env) (exeName : string) :
  empty exeName = false ->
  match find (fileExists e)
          (map (fun dir => add_backslash dir ++ exeName)
             (match PATH e with
              | Some envPath => getlines ";" "" envPath
              | None => []
              end)) with
  | Some p => findInPath e exeName = p /\ fileExists e p = true /\ empty p = false
  | None => findInPath e exeName = ""
  end.
Proof.
  intros Ex. unfold findInPath.
  destruct (PATH e) as [envPath | ]; [ | reflexivity ].
  induction (getlines ";" "" envPath) as [ | dir dirs IH ]; cbn; [ reflexivity | ].
  destruct (fileExists e (add_backslash dir ++ exeName)) eqn:F; [ | exact IH ].
  split; [ reflexivity | ]. split; [ exact F | ].
  apply append_not_empty. exact Ex.
Qed.

Lemma findInPath_first_witness :
  findInPath (sample_env None (inr "") None) nvidia_smi_exe
  = "C:\Windows\System32\nvidia-smi.exe".
Proof.
  pose proof (findInPath_first (sample_env None (inr "") None) nvidia_smi_exe eq_refl)
    as H.
  cbn in H. exact (proj1 H).
Defined.

Lemma getNVSMIPath_first_existing (e : Env) : getNVSMIPath e = first_existing e.
Proof.
  unfold getNVSMIPath, first_existing, priority_candidates.
  rewrite !find_app.
  rewrite <- step_registry_spec, <- step_exe_folder_spec, <- step_PATH_spec.
  fold (step_common e).
  destruct (step_registry e); [ reflexivity | ].
  destruct (step_common e); [ reflexivity | ].
  destruct (step_exe_folder e); [ reflexivity | ].
  destruct (step_PATH e); reflexivity.
Qed.

(** X10. The discovery never returns an empty path, and what it returns is a
    candidate of the priority list that exists on disk, unless no candidate
    exists: only then does it return the bare name. *)
Theorem getNVSMIPath_exists_or_bare (e : Env) :
  empty (getNVSMIPath e) = false /\
  ((In (getNVSMIPath e) (priority_candidates e) /\
    fileExists e (getNVSMIPath e) = true)
   \/
   (getNVSMIPath e = nvidia_smi_exe /\
    forall p, In p (priority_candidates e) -> fileExists e p = false)).
Proof.
  rewrite getNVSMIPath_first_existing. unfold first_existing.
  destruct (find (fileExists e) (priority_candidates e)) as [p | ] eqn:F.
  - destruct (find_some _ _ F) as [I X]. split; [ | left; auto ].
    unfold priority_candidates in I.
    repeat (apply in_app_or in I; destruct I as [I | I]).
    + unfold registry_candidate in I.
      destruct (NVSMI_registry e); try contradiction.
      destruct I as [<- | []]. apply append_not_empty. reflexivity.
    + cbn in I. repeat (destruct I as [<- | I]; [ reflexivity | ]). contradiction.
    + unfold exe_folder_candidate in I.
      destruct (find_last_of _ _); try contradiction.
      destruct I as [<- | []]. apply append_not_empty. reflexivity.
    + unfold PATH_candidates in I.
      destruct (PATH e); try contradiction.
      apply in_map_iff in I. destruct I as (dir & <- & _).
      apply append_not_empty. reflexivity.
  - split; [ reflexivity | ]. right. split; [ reflexivity | ].
    intros p I. exact (find_none _ _ F p I).
Qed.

(** ** Launching the tool *)

Lemma getXmlGpuData_command (e : Env) :
  getXmlGpuData e = exec_no_console e (c_str (command_line e)).
Proof. reflexivity. Qed.

(** X11. When the pipe or the child process cannot be created, the refresh
    still returns: it clears the available flag, keeps the stored record and
    writes one line to [std::cerr], naming the failed call and, for
    [CreateProcessA], the error code. *)
Theorem launch_failure_reported (e : Env) (g : Globals) :
  CreatePipe e = false
  \/ (exists code, CreateProcessA e (c_str (command_line e)) = inl code) ->
  exists g' msg,
    refreshAllData e g = inr g' /\
    g_gpuDataAvailable g' = false /\ g_gpuData g' = g_gpuData g /\
    cerr g' = cerr g ++ "Error getting GPU data: " ++ msg ++ nl /\
    (CreatePipe e = false /\ msg = "CreatePipe failed!"
     \/ exists code,
          CreatePipe e = true /\
          CreateProcessA e (c_str (command_line e)) = inl code /\
          msg = "CreateProcess failed with error code: " ++ put_unsigned code).
Proof.
  intros H.
  destruct (refreshAllData_unfold e g) as (q & st & g1 & _ & R & _ & ->).
  unfold refresh_gpu in R. rewrite getXmlGpuData_command in R.
  unfold exec_no_console in R.
  destruct (CreatePipe e) eqn:P; cbn in R.
  - destruct H as [H | (code & H)]; [ discriminate | ].
    rewrite H in R. cbn in R. injection R as <-.
    eexists. exists ("CreateProcess failed with error code: " ++ put_unsigned code).
    split; [ reflexivity | ]. split; [ reflexivity | ].
    split; [ reflexivity | ]. split; [ reflexivity | ].
    right. exists code. auto.
  - injection R as <-.
    eexists. exists "CreatePipe failed!".
    split; [ reflexivity | ]. split; [ reflexivity | ].
    split; [ reflexivity | ]. split; [ reflexivity | ].
    left. auto.
Qed.

Lemma launch_failure_reported_witness :
  exists g',
    refreshAllData (sample_env None (inl 2) None) globals_init = inr g' /\
    cerr g' = "Error getting GPU data: CreateProcess failed with error code: 2" ++ nl.
Proof.
  destruct (launch_failure_reported (sample_env None (inl 2) None) globals_init)
    as (g' & msg & R & _ & _ & C & _).
  - right. exists 2. reflexivity.
  - exists g'. split; [ exact R | ].
    vm_compute in R. injection R as <-. reflexivity.
Defined.

(** X12. An empty output and an output that [load_string] rejects are silent:
    the refresh clears the available flag and writes nothing to
    [std::cerr]. *)
Theorem silent_failures (e : Env) (g : Globals) (s : string) :
  getXmlGpuData e = inr s ->
  empty s = true \/ load_string e (c_str s) = None ->
  exists g',
    refreshAllData e g = inr g' /\
    g_gpuDataAvailable g' = false /\ cerr g' = cerr g.
Proof.
  intros X H.
  destruct (refreshAllData_unfold e g) as (q & st & g1 & _ & R & _ & ->).
  unfold refresh_gpu in R. rewrite X in R. cbn in R.
  eexists. split; [ reflexivity | ]. cbn.
  destruct (empty s) eqn:Es; cbn in R.
  - injection R as <-. split; reflexivity.
  - destruct H as [H | H]; [ discriminate | ].
    rewrite H in R. injection R as <-. split; reflexivity.
Qed.

Lemma silent_failures_witness :
  exists g',
    refreshAllData (sample_env None (inr "NVIDIA-SMI has failed") None) globals_init
    = inr g' /\
    g_gpuDataAvailable g' = false /\ cerr g' = cerr globals_init.
Proof.
  apply (silent_failures (sample_env None (inr "NVIDIA-SMI has failed") None)
           globals_init "NVIDIA-SMI has failed").
  - reflexivity.
  - right. reflexivity.
Defined.

(** ** What [parseGpuData] can return *)

Lemma digit_value_nonneg (c : ascii) : isdigit c = true -> 0 <= digit_value c.
Proof.
  unfold isdigit, digit_value. intros H.
  apply andb_prop in H. destruct H as [H _]. apply N.leb_le in H. lia.
Qed.

Lemma read_digits_nonneg (s : string) :
  forall acc m, 0 <= acc_value acc -> read_digits s acc = Some m -> 0 <= m.
Proof.
  induction s as [ | c s IH ]; intros acc m Ha H; cbn [read_digits] in H.
  - subst acc. exact Ha.
  - destruct (isdigit c) eqn:D.
    + apply (IH _ m) in H; [ exact H | ].
      cbn [acc_value]. pose proof (digit_value_nonneg c D).
      fold (acc_value acc). lia.
    + subst acc. exact Ha.
Qed.

Lemma stoul_outcome (s : string) :
  match stoul s with
  | inr n => 0 <= n < 2 ^ 32
  | inl ab =>
      ab = thrown (invalid_argument "invalid stoul argument") \/
      ab = thrown (out_of_range "stoul argument out of range")
  end.
Proof.
  unfold stoul.
  match goal with
  | |- context [let '(_, _) := ?X in _] => destruct X as [negative s']
  end.
  destruct (read_digits s' None) as [m | ] eqn:R; [ | left; reflexivity ].
  pose proof (read_digits_nonneg s' None m ltac:(cbn; lia) R) as Hm.
  destruct (ULONG_MAX <? m) eqn:L; [ right; reflexivity | ].
  apply Z.ltb_ge in L. unfold ULONG_MAX in L. cbn [ret].
  destruct negative; [ apply u32_range | lia ].
Qed.

Ltac outcome_stoul :=
  match goal with
  | |- context [stoul ?x] =>
      let H := fresh "S" in
      pose proof (stoul_outcome x) as H;
      destruct (stoul x) as [? | ?]; cbn [bind ret]
  end.

Lemma div_1024_range (n : Z) :
  0 <= n < 2 ^ 32 ->
  (0 <= div_1024 (to_double n))%Q /\ (div_1024 (to_double n) < 4194304 # 1)%Q.
Proof.
  intros H. unfold div_1024, to_double, Qdiv, Qinv, Qmult, Qle, Qlt, inject_Z.
  cbn -[Z.mul]. lia.
Qed.

(** X13. A record returned by [parseGpuData] has its temperature and
    utilisation within the 32-bit unsigned range, and, when the GPU record
    has a [fb_memory_usage] sub-record, both memory figures between 0 and
    4194304 GB (2^32 MiB). *)
Theorem parseGpuData_ranges (ind : Indeterminate) (doc : xml_document) (d : GpuData) :
  parseGpuData ind doc = inr d ->
  0 <= temperature d < 2 ^ 32 /\
  0 <= utilizationGpu d < 2 ^ 32 /\
  (is_null (child (child (doc_child doc "nvidia_smi_log") "gpu") "fb_memory_usage")
   = false ->
   (0 <= memoryTotal d)%Q /\ (memoryTotal d < 4194304 # 1)%Q /\
   (0 <= memoryUsed d)%Q /\ (memoryUsed d < 4194304 # 1)%Q).
Proof.
  unfold parseGpuData.
  set (gpu := child (doc_child doc "nvidia_smi_log") "gpu").
  pose proof (u32_range (ind_temperature ind)) as Rt.
  pose proof (u32_range (ind_utilizationGpu ind)) as Ru.
  destruct (is_null gpu) eqn:G; cbn [negb].
  - intros H. injection H as <-. cbn.
    repeat split; try apply Rt; try apply Ru;
      destruct gpu; discriminate.
  - destruct (is_null (child (child gpu "temperature") "gpu_temp"));
      cbn [negb bind ret]; [ | outcome_stoul; [ discriminate | ] ];
      (destruct (is_null (child gpu "fb_memory_usage")) eqn:Mn;
       cbn [negb bind ret];
       [ | outcome_stoul; [ discriminate | ]; outcome_stoul; [ discriminate | ] ];
       (destruct (is_null (child gpu "utilization"));
        cbn [negb bind ret]; [ | outcome_stoul; [ discriminate | ] ];
        intros H; injection H as <-; cbn;
        repeat split;
        try apply Rt; try apply Ru; try lia; try discriminate;
        try (apply div_1024_range; assumption))).
Qed.

Lemma parseGpuData_ranges_witness :
  exists d,
    parseGpuData sample_stack sample_doc = inr d /\
    (0 <= memoryUsed d)%Q /\ (memoryUsed d < 4194304 # 1)%Q.
Proof.
  eexists. split; [ reflexivity | ].
  refine (let H := parseGpuData_ranges sample_stack sample_doc _ eq_refl in _).
  destruct H as (_ & _ & H). destruct (H eq_refl) as (_ & _ & A & B).
  split; [ exact A | exact B ].
Defined.

(** X14. [parseGpuData] throws only on a document that has the GPU record, and
    only what [std::stoul] throws: [std::invalid_argument] for a text that
    does not start with a number, [std::out_of_range] for one above
    [ULONG_MAX]. *)
Theorem parseGpuData_failures (ind : Indeterminate) (doc : xml_document)
    (ab : abnormal) :
  parseGpuData ind doc = inl ab ->
  is_null (child (doc_child doc "nvidia_smi_log") "gpu") = false /\
  (ab = thrown (invalid_argument "invalid stoul argument") \/
   ab = thrown (out_of_range "stoul argument out of range")).
Proof.
  unfold parseGpuData.
  set (gpu := child (doc_child doc "nvidia_smi_log") "gpu").
  destruct (is_null gpu) eqn:G; cbn [negb]; [ discriminate | ].
  intros H. split; [ reflexivity | ]. revert H.
  destruct (is_null (child (child gpu "temperature") "gpu_temp"));
    cbn [negb bind ret];
    [ | outcome_stoul; [ intros H; injection H as <-; assumption | ] ];
    (destruct (is_null (child gpu "fb_memory_usage"));
     cbn [negb bind ret];
     [ | outcome_stoul; [ intros H; injection H as <-; assumption | ];
         outcome_stoul; [ intros H; injection H as <-; assumption | ] ];
     (destruct (is_null (child gpu "utilization"));
      cbn [negb bind ret];
      [ discriminate
      | outcome_stoul; [ intros H; injection H as <-; assumption | discriminate ] ])).
Qed.

Lemma parseGpuData_failures_witness :
  is_null (child (doc_child doc_without_gpu_util "nvidia_smi_log") "gpu") = false /\
  (thrown (invalid_argument "invalid stoul argument")
   = thrown (invalid_argument "invalid stoul argument") \/
   thrown (invalid_argument "invalid stoul argument")
   = thrown (out_of_range "stoul argument out of range")).
Proof.
  apply (parseGpuData_failures sample_stack doc_without_gpu_util).
  reflexivity.
Defined.

(** ** Message sequences *)

(** What one message leaves behind: the handler returns, the timer is as
    [timer_effect] says, and the text, the GPU record and the flag are
    either untouched or rewritten together by a refresh. *)
Lemma WndProc_effect (e : Env) (msg : Message) (g : Globals) :
  exists g',
    WndProc e msg g = inr g' /\
    timer_running g' = timer_effect msg (timer_running g) /\
    ((triggers_refresh msg = false /\
      g_statsText g' = g_statsText g /\ g_gpuData g' = g_gpuData g /\
      g_gpuDataAvailable g' = g_gpuDataAvailable g)
     \/
     (triggers_refresh msg = true /\
      exists cpuUsage ramUsage,
        g_statsText g' = strncpy_s_TRUNCATE 1024 (report cpuUsage ramUsage g'))).
Proof.
  assert (R : forall g0,
             exists g',
               refreshAllData e g0 = inr g' /\
               timer_running g' = timer_running g0 /\
               exists cpuUsage ramUsage,
                 g_statsText g' = strncpy_s_TRUNCATE 1024 (report cpuUsage ramUsage g')).
  { intros g0.
    destruct (refreshAllData_unfold e g0) as (q & st & g1 & _ & G & _ & ->).
    eexists. split; [ reflexivity | ]. split.
    - destruct (refresh_gpu_cases e (set_cpu_statics g0 st))
        as [(s & doc & data & _ & _ & _ & _ & G') | (g' & G' & _ & _ & _ & T & _)];
        rewrite G' in G; injection G as <-; [ reflexivity | exact T ].
    - eexists. eexists. reflexivity. }
  destruct msg; cbn [WndProc triggers_refresh timer_effect];
    try (eexists; split; [ reflexivity | ]; split; [ reflexivity | ];
         left; repeat split).
  - destruct (getCurrentCpuUsage_returns (GetSystemTimes e)
                (cpu_statics (set_timer g true))) as (q & st & C).
    rewrite C. eexists. split; [ reflexivity | ]. split; [ reflexivity | ].
    left. repeat split.
  - destruct (R (set_timer g true)) as (g' & E & T & X).
    exists g'. split; [ exact E | ]. split; [ exact T | ]. right. auto.
  - destruct (wParam =? CPU_USAGE_TIMER_ID).
    + destruct (R g) as (g' & E & T & X).
      exists g'. split; [ exact E | ]. split; [ exact T | ]. right. auto.
    + eexists. split; [ reflexivity | ]. split; [ reflexivity | ].
      left. repeat split.
Qed.

(** X15. Whatever the messages and the answers of the environment, no exception
    leaves the window procedure, and the text it stores always fits the
    1024-byte buffer: at most 1023 characters, none of them NUL. *)
Theorem text_fits_buffer (msgs : list (Env * Message)) (g : Globals) :
  (String.length (g_statsText g) <= 1023)%nat ->
  contains (g_statsText g) NUL = false ->
  exists g',
    dispatch_all msgs g = inr g' /\
    (String.length (g_statsText g') <= 1023)%nat /\
    contains (g_statsText g') NUL = false.
Proof.
  revert g. induction msgs as [ | [e msg] rest IH ]; intros g L N.
  - exists g. auto.
  - cbn [dispatch_all].
    destruct (WndProc_effect e msg g)
      as (g1 & W & _ & [(_ & T & _) | (_ & q & r & T)]); rewrite W; cbn [bind].
    + apply IH; rewrite T; assumption.
    + apply IH; rewrite T; unfold strncpy_s_TRUNCATE, substr.
      * apply length_substring.
      * apply contains_substring, c_str_no_NUL.
Qed.

Lemma text_fits_buffer_witness :
  exists g',
    dispatch_all
      [ (sample_env (Some (system_times 100 150 50)) (inr "") None, WM_CREATE);
        (sample_env (Some (system_times 130 200 60)) (inr sample_xml)
           (Some sample_doc), WM_TIMER 1) ]
      globals_init = inr g' /\
    (String.length (g_statsText g') <= 1023)%nat /\
    contains (g_statsText g') NUL = false.
Proof.
  apply text_fits_buffer.
  - cbn. lia.
  - reflexivity.
Defined.

Lemma dispatch_all_timer (msgs : list (Env * Message)) :
  forall g,
    exists g',
      dispatch_all msgs g = inr g' /\
      timer_running g'
      = fold_left (fun running em => timer_effect (snd em) running) msgs
          (timer_running g).
Proof.
  induction msgs as [ | [e msg] rest IH ]; intros g; cbn [dispatch_all fold_left].
  - exists g. auto.
  - destruct (WndProc_effect e msg g) as (g1 & W & T & _).
    rewrite W. cbn [bind snd]. rewrite <- T. apply IH.
Qed.

(** X16. The timer is stopped for the whole of an interactive resize: after
    [WM_ENTERSIZEMOVE], and until [WM_EXITSIZEMOVE] or [WM_CREATE] arrives,
    no message (not even a late [WM_TIMER], whose refresh still runs)
    starts it again; [WM_EXITSIZEMOVE] then starts it, and it keeps running
    until the next [WM_ENTERSIZEMOVE] or [WM_DESTROY]. *)
Theorem timer_paused_during_resize (e : Env) (msgs : list (Env * Message))
    (g : Globals) :
  (Forall (fun em => snd em <> WM_CREATE /\ snd em <> WM_EXITSIZEMOVE) msgs ->
   exists g',
     dispatch_all ((e, WM_ENTERSIZEMOVE) :: msgs) g = inr g' /\
     timer_running g' = false) /\
  (Forall (fun em => snd em <> WM_ENTERSIZEMOVE /\ snd em <> WM_DESTROY) msgs ->
   exists g',
     dispatch_all ((e, WM_EXITSIZEMOVE) :: msgs) g = inr g' /\
     timer_running g' = true).
Proof.
  split; intros F.
  - destruct (dispatch_all_timer ((e, WM_ENTERSIZEMOVE) :: msgs) g) as (g' & D & T).
    exists g'. split; [ exact D | ]. rewrite T. cbn [fold_left snd timer_effect].
    clear D T. induction F as [ | [e1 m] rest [H1 H2] _ IH ]; [ reflexivity | ].
    cbn [fold_left snd]. cbn [snd] in H1, H2.
    destruct m; try contradiction; exact IH.
  - destruct (dispatch_all_timer ((e, WM_EXITSIZEMOVE) :: msgs) g) as (g' & D & T).
    exists g'. split; [ exact D | ]. rewrite T. cbn [fold_left snd timer_effect].
    clear D T. induction F as [ | [e1 m] rest [H1 H2] _ IH ]; [ reflexivity | ].
    cbn [fold_left snd]. cbn [snd] in H1, H2.
    destruct m; try contradiction; exact IH.
Qed.

Lemma timer_paused_during_resize_witness :
  exists g',
    dispatch_all
      [ (sample_env None (inr "") None, WM_ENTERSIZEMOVE);
        (sample_env (Some (system_times 130 200 60)) (inr "") None, WM_TIMER 1);
        (sample_env None (inr "") None, WM_PAINT) ]
      (set_timer globals_init true) = inr g' /\
    timer_running g' = false.
Proof.
  apply (proj1 (timer_paused_during_resize (sample_env None (inr "") None)
                  [ (sample_env (Some (system_times 130 200 60)) (inr "") None,
                     WM_TIMER 1);
                    (sample_env None (inr "") None, WM_PAINT) ]
                  (set_timer globals_init true))).
  repeat constructor; discriminate.
Defined.

(** X17. Only a refresh writes the text, the GPU record and the available flag:
    over messages that trigger none ([WM_EXITSIZEMOVE] and [WM_TIMER] with
    the id of the timer do), the three stay as they were; the window shows
    [Initializing...] until the first of them. *)
Theorem text_changes_only_on_refresh (msgs : list (Env * Message)) (g : Globals) :
  Forall (fun em => triggers_refresh (snd em) = false) msgs ->
  exists g',
    dispatch_all msgs g = inr g' /\
    g_statsText g' = g_statsText g /\ g_gpuData g' = g_gpuData g /\
    g_gpuDataAvailable g' = g_gpuDataAvailable g.
Proof.
  intros F. revert g.
  induction F as [ | [e msg] rest H _ IH ]; intros g; cbn [dispatch_all].
  - exists g. auto.
  - cbn [snd] in H.
    destruct (WndProc_effect e msg g)
      as (g1 & W & _ & [(_ & T & D & A) | (Tr & _)]); [ | congruence ].
    rewrite W. cbn [bind].
    destruct (IH g1) as (g' & E & T' & D' & A').
    exists g'. split; [ exact E | ]. rewrite T', D', A'. auto.
Qed.

Lemma text_changes_only_on_refresh_witness :
  exists g',
    dispatch_all
      [ (sample_env (Some (system_times 100 150 50)) (inr "") None, WM_CREATE);
        (sample_env None (inr "") None, WM_PAINT);
        (sample_env None (inr "") None, WM_TIMER 7) ]
      globals_init = inr g' /\
    g_statsText g' = "Initializing...".
Proof.
  destruct (text_changes_only_on_refresh
              [ (sample_env (Some (system_times 100 150 50)) (inr "") None, WM_CREATE);
                (sample_env None (inr "") None, WM_PAINT);
                (sample_env None (inr "") None, WM_TIMER 7) ]
              globals_init) as (g' & D & T & _).
  - repeat constructor.
  - exists g'. split; [ exact D | exact T ].
Defined.

Lemma report_depends_on_gpu_fields (q r : double) (g1 g2 : Globals) :
  g_gpuData g1 = g_gpuData g2 ->
  g_gpuDataAvailable g1 = g_gpuDataAvailable g2 ->
  report q r g1 = report q r g2.
Proof. intros D A. unfold report. rewrite D, A. reflexivity. Qed.

(** X18. The text always matches what is stored: once a refresh has run, the
    text is the report of the GPU record and flag that the globals hold at
    that moment, so the window never shows metrics other than the stored
    ones, nor metrics while the flag is clear. *)
Theorem text_always_matches_state (msgs : list (Env * Message)) (g : Globals) :
  text_matches_state g \/ g_statsText g = "Initializing..." ->
  exists g',
    dispatch_all msgs g = inr g' /\
    (text_matches_state g' \/ g_statsText g' = "Initializing...").
Proof.
  revert g. induction msgs as [ | [e msg] rest IH ]; intros g I;
    cbn [dispatch_all].
  - exists g. auto.
  - destruct (WndProc_effect e msg g)
      as (g1 & W & _ & [(_ & T & D & A) | (_ & q & r & T)]); rewrite W; cbn [bind];
      apply IH.
    + destruct I as [(q & r & I) | I].
      * left. exists q, r. rewrite T, I.
        rewrite (report_depends_on_gpu_fields q r g g1) by congruence.
        reflexivity.
      * right. congruence.
    + left. exists q, r. exact T.
Qed.

Lemma text_always_matches_state_witness :
  exists g',
    dispatch_all
      [ (sample_env (Some (system_times 100 150 50)) (inr "") None, WM_CREATE);
        (sample_env (Some (system_times 130 200 60)) (inr sample_xml)
           (Some sample_doc), WM_TIMER 1);
        (sample_env None (inr "") None, WM_ENTERSIZEMOVE) ]
      globals_init = inr g' /\
    (text_matches_state g' \/ g_statsText g' = "Initializing...").
Proof.
  apply text_always_matches_state. right. reflexivity.
Defined.

(** ** Painting *)

(** X19. For a client rectangle with its origin at (0, 0), as [GetClientRect]
    gives it, and a measured text of width [w] and height [h] (all below
    2^30, so that no [int] operation overflows): the rectangle drawn into
    has exactly the measured size, the free space on its two sides differs
    by at most one pixel in each direction, and when the text is not larger
    than the client area the rectangle lies inside it. *)
Theorem paint_text_centered (DrawText_CALCRECT : string -> Paint.RECT -> Paint.RECT)
    (clientRect : Paint.RECT) (text : string) :
  let measured := DrawText_CALCRECT text (Paint.measured_from clientRect) in
  let w := Paint.right measured in
  let h := Paint.bottom measured in
  let r := Paint.textRect DrawText_CALCRECT clientRect text in
  Paint.left clientRect = 0 -> Paint.top clientRect = 0 ->
  0 <= Paint.right clientRect < 2 ^ 30 -> 0 <= Paint.bottom clientRect < 2 ^ 30 ->
  0 <= w < 2 ^ 30 -> 0 <= h < 2 ^ 30 ->
  Paint.right r - Paint.left r = w /\ Paint.bottom r - Paint.top r = h /\
  -1 <= (Paint.right clientRect - Paint.right r) - Paint.left r <= 1 /\
  -1 <= (Paint.bottom clientRect - Paint.bottom r) - Paint.top r <= 1 /\
  (w <= Paint.right clientRect ->
   0 <= Paint.left r /\ Paint.right r <= Paint.right clientRect) /\
  (h <= Paint.bottom clientRect ->
   0 <= Paint.top r /\ Paint.bottom r <= Paint.bottom clientRect) /\
  - 2 ^ 31 <= Paint.left r < 2 ^ 31 /\ - 2 ^ 31 <= Paint.right r < 2 ^ 31 /\
  - 2 ^ 31 <= Paint.top r < 2 ^ 31 /\ - 2 ^ 31 <= Paint.bottom r < 2 ^ 31.
Proof.
  intros measured w h r L T Rr Rb Hw Hh.
  subst r. unfold Paint.textRect. fold (Paint.measured_from clientRect).
  fold measured. fold w. fold h. cbn [Paint.left Paint.top Paint.right Paint.bottom].
  pose proof (Z.quot_rem' (Paint.right clientRect - w) 2) as Qx.
  pose proof (Z.quot_rem' (Paint.bottom clientRect - h) 2) as Qy.
  assert (Rx : -1 <= Z.rem (Paint.right clientRect - w) 2 <= 1).
  { pose proof (Z.rem_bound_abs (Paint.right clientRect - w) 2 ltac:(lia)). lia. }
  assert (Ry : -1 <= Z.rem (Paint.bottom clientRect - h) 2 <= 1).
  { pose proof (Z.rem_bound_abs (Paint.bottom clientRect - h) 2 ltac:(lia)). lia. }
  assert (Px : w <= Paint.right clientRect ->
               0 <= Z.rem (Paint.right clientRect - w) 2).
  { intros P. apply Z.rem_nonneg; lia. }
  assert (Py : h <= Paint.bottom clientRect ->
               0 <= Z.rem (Paint.bottom clientRect - h) 2).
  { intros P. apply Z.rem_nonneg; lia. }
  repeat split; lia.
Qed.

Lemma paint_text_centered_witness :
  let calc := fun (_ : string) (rc : Paint.RECT) =>
                {| Paint.left := Paint.left rc; Paint.top := Paint.top rc;
                   Paint.right := 215; Paint.bottom := 96 |} in
  let client := {| Paint.left := 0; Paint.top := 0; Paint.right := 380;
                   Paint.bottom := 157 |} in
  Paint.textRect calc client "Initializing..."
  = {| Paint.left := 82; Paint.top := 30; Paint.right := 297; Paint.bottom := 126 |}
  /\ Paint.right (Paint.textRect calc client "Initializing...")
     - Paint.left (Paint.textRect calc client "Initializing...") = 215.
Proof.
  cbv zeta. split; [ reflexivity | ].
  refine (proj1 (paint_text_centered
                   (fun (_ : string) (rc : Paint.RECT) =>
                      {| Paint.left := Paint.left rc; Paint.top := Paint.top rc;
                         Paint.right := 215; Paint.bottom := 96 |})
                   {| Paint.left := 0; Paint.top := 0; Paint.right := 380;
                      Paint.bottom := 157 |}
                   "Initializing..." _ _ _ _ _ _));
    cbn; lia.
Defined.

Lemma PATH_split_round_trip_witness :
  getlines ";" "" "C:\Windows\System32;C:\Windows"
  = [ "C:\Windows\System32"; "C:\Windows" ] /\
  contains "C:\Windows" ";" = false /\
  join_terminated ";" (getlines ";" "" "C:\Windows\System32;C:\Windows")
  = "C:\Windows\System32;C:\Windows;".
Proof.
  split; [ reflexivity | ].
  destruct (PATH_split_round_trip "C:\Windows\System32;C:\Windows") as [P J].
  split; [ | exact J ].
  apply P. right. left. reflexivity.
Defined.

Lemma getNVSMIPath_exists_or_bare_witness :
  getNVSMIPath
    {| GetSystemTimes := None;
       GlobalMemoryStatusEx := {| ullTotalPhys := 0; ullAvailPhys := 0 |};
       NVSMI_registry := RegOpenKeyExA_failed;
       PathFileExistsA := fun _ => false;
       GetModuleFileNameA := "C:\Tools\stats_display.exe";
       PATH := Some "C:\Windows";
       CreatePipe := true;
       CreateProcessA := fun _ => inr "";
       load_string := fun _ => None;
       stack := sample_stack |}
  = nvidia_smi_exe.
Proof.
  match goal with
  | |- getNVSMIPath ?e = _ =>
      destruct (getNVSMIPath_exists_or_bare e) as [_ [[_ X] | [B _]]]
  end.
  - discriminate X.
  - exact B.
Defined.
